(** * aish_agent.planner_node: the planner node of the agent graph

    A shallow embedding of [src/aish_agent/planner_node.py] and the
    properties of [PlannerNode._parse_response], [PlannerNode.plan] and
    [PlannerNode.__call__].

    Conventions of the embedding.
    - A Python [str] is a list of Unicode code points ([list N]); the
      literals of the source are written [py "..."].
    - Python data ([Any]) is the type [value]; a [dict] keeps its insertion
      order and is an association list with unique keys.
    - A Python call either returns or raises: [result A].  The classes of
      [exn] are all subclasses of [Exception]; the texts of the exceptions
      the interpreter raises are those of CPython 3.11.
    - [self.llm.invoke] is the one interaction with the outside: a program
      is a tree [prog A] whose [Invoke] nodes are the calls of the client.
      The text the planner parses is a [str], as [_parse_response]
      declares.
    - [self.config.debug] only guards [print] calls; what they write to
      standard output is no part of any returned value and is left out.
    - [json.loads] belongs to the Python standard library; [json.loads]
      below follows the decoder of CPython (the [_json] scanner), with the
      two limits of the interpreter a decoder run depends on, see
      [interp]. *)

From Stdlib Require Import String Ascii ZArith NArith List Bool Lia DecimalString.
From stdpp Require Import gmap.
Import ListNotations.

Local Open Scope Z_scope.
#[local] Set Warnings "-register-all".

(** ** Python strings *)

Abbreviation str := (list N).

(** The source literal [s] (ASCII) as a [str]. *)
Definition py (s : string) : str :=
  List.map N_of_ascii (list_ascii_of_string s).

(** [js s] is [py s] with every apostrophe replaced by a double quote:
    JSON texts are written [js "{'plan': []}"] for [{"plan": []}]. *)
Definition js (s : string) : str :=
  List.map (fun c => if N.eqb c 39 then 34%N else c) (py s).

Arguments py : simpl never.
Arguments js : simpl never.

Module Py.

(** [str.isspace] on one code point (Py_UNICODE_ISSPACE). *)
Definition isspace (c : N) : bool :=
  ((9 <=? c) && (c <=? 13) || (28 <=? c) && (c <=? 32)
   || (c =? 133) || (c =? 160) || (c =? 5760)
   || (8192 <=? c) && (c <=? 8202)
   || (c =? 8232) || (c =? 8233) || (c =? 8239) || (c =? 8287)
   || (c =? 12288))%N.

Fixpoint lstrip (s : str) : str :=
  match s with
  | c :: t => if isspace c then lstrip t else s
  | [] => []
  end.

Definition rstrip (s : str) : str := rev (lstrip (rev s)).

(** [s.strip()] *)
Definition strip (s : str) : str := rstrip (lstrip s).

Fixpoint eqb (a b : str) : bool :=
  match a, b with
  | [], [] => true
  | x :: a', y :: b' => N.eqb x y && eqb a' b'
  | _, _ => false
  end.

(** [s.startswith(prefix)] *)
Fixpoint startswith (s prefix : str) : bool :=
  match prefix, s with
  | [], _ => true
  | p :: prefix', c :: s' => N.eqb p c && startswith s' prefix'
  | _ :: _, [] => false
  end.

Fixpoint find_from (s sub : str) (i : Z) : Z :=
  if startswith s sub then i
  else match s with
       | [] => -1
       | _ :: t => find_from t sub (i + 1)
       end.

(** [s.find(sub)]: the lowest index of [sub] in [s], or -1. *)
Definition find (s sub : str) : Z := find_from s sub 0.

Fixpoint rfind_from (s sub : str) (i : Z) : Z :=
  match s with
  | [] => if startswith [] sub then i else -1
  | _ :: t =>
      let r := rfind_from t sub (i + 1) in
      if r =? -1 then (if startswith s sub then i else -1) else r
  end.

(** [s.rfind(sub)]: the highest index of [sub] in [s], or -1. *)
Definition rfind (s sub : str) : Z := rfind_from s sub 0.

(** A slice bound as Python normalises it: a negative bound counts from
    the end, and the result is clipped to [0, len]. *)
Definition slice_bound (len i : Z) : Z :=
  if i <? 0 then Z.max 0 (i + len) else Z.min i len.

(** [s[a:b]] *)
Definition slice (s : str) (a b : Z) : str :=
  let len := Z.of_nat (length s) in
  let a' := slice_bound len a in
  let b' := slice_bound len b in
  firstn (Z.to_nat (b' - a')) (skipn (Z.to_nat a') s).

(** [sub in s] for two strings. *)
Definition contains (s sub : str) : bool := negb (find s sub =? -1).

(** [str(n)] for a natural number. *)
Definition str_of_N (n : N) : str :=
  py (NilEmpty.string_of_uint (N.to_uint n)).

End Py.

(** ** Python values, exceptions and results *)

(** A [float] is kept as the decimal it was read from: [FDec neg m e] is
    the double nearest to (-1)^neg * m * 10^e.  No operation of the planner
    computes with floats; only their truth value is ever needed. *)
Inductive pyfloat :=
| FNaN
| FInf (neg : bool)
| FDec (neg : bool) (m : N) (e : Z).

Inductive value :=
| VNone
| VBool (b : bool)
| VInt (z : Z)
| VFloat (f : pyfloat)
| VStr (s : str)
| VList (l : list value)
| VDict (d : list (str * value)).

Abbreviation dict := (list (str * value)).

Inductive exn_class :=
| JSONDecodeError
| ValueError
| TypeError
| AttributeError
| KeyError
| RecursionError
| OtherException (name : str).

(** An exception instance: its class and [str(e)]. *)
Record exn := Exn { exn_cls : exn_class; exn_str : str }.

Inductive result (A : Type) :=
| Ok (a : A)
| Raise (e : exn).
Arguments Ok {A} a.
Arguments Raise {A} e.

Definition bind {A B} (r : result A) (k : A -> result B) : result B :=
  match r with
  | Ok a => k a
  | Raise e => Raise e
  end.

Notation "x <- r ;; k" := (bind r (fun x => k))
  (at level 100, r at next level, right associativity).

(** [try: body  except <classes accepted by catches> as e: handler e] *)
Definition try_except {A} (body : result A) (catches : exn_class -> bool)
    (handler : exn -> result A) : result A :=
  match body with
  | Ok a => Ok a
  | Raise e => if catches (exn_cls e) then handler e else Raise e
  end.

Definition is_JSONDecodeError (c : exn_class) : bool :=
  match c with JSONDecodeError => true | _ => false end.

(** [except Exception]: every class of [exn_class] derives from it. *)
Definition is_Exception (c : exn_class) : bool := true.

Module Dict.

Fixpoint get (d : dict) (k : str) : option value :=
  match d with
  | [] => None
  | (k', v) :: t => if Py.eqb k' k then Some v else get t k
  end.

(** [d[k] = v]: an existing key keeps its place. *)
Fixpoint set (d : dict) (k : str) (v : value) : dict :=
  match d with
  | [] => [(k, v)]
  | (k', v') :: t => if Py.eqb k' k then (k', v) :: t else (k', v') :: set t k v
  end.

End Dict.

Definition type_name (v : value) : str :=
  match v with
  | VNone => py "NoneType"
  | VBool _ => py "bool"
  | VInt _ => py "int"
  | VFloat _ => py "float"
  | VStr _ => py "str"
  | VList _ => py "list"
  | VDict _ => py "dict"
  end.

(** [bool(v)]; a float is false when it is a zero, which a decimal is
    when it rounds to zero: at most 2^-1075 in magnitude. *)
Definition truthy (v : value) : bool :=
  match v with
  | VNone => false
  | VBool b => b
  | VInt z => negb (z =? 0)
  | VFloat FNaN => true
  | VFloat (FInf _) => true
  | VFloat (FDec _ m e) =>
      if 0 <=? e then negb (N.eqb m 0)
      else 10 ^ (- e) <? Z.of_N m * 2 ^ 1075
  | VStr s => match s with [] => false | _ => true end
  | VList l => match l with [] => false | _ => true end
  | VDict d => match d with [] => false | _ => true end
  end.

(** [key in container] for a string [key]. *)
Definition py_in (key : str) (container : value) : result bool :=
  match container with
  | VDict d => Ok (match Dict.get d key with Some _ => true | None => false end)
  | VList l =>
      Ok (existsb (fun x => match x with VStr s => Py.eqb s key | _ => false end) l)
  | VStr s => Ok (Py.contains s key)
  | _ => Raise (Exn TypeError
                  (py "argument of type '" ++ type_name container
                     ++ py "' is not iterable"))
  end.

(** [all(f(x) for x in xs)]: stops at the first false, and at the first
    exception. *)
Fixpoint py_all {A} (f : A -> result bool) (xs : list A) : result bool :=
  match xs with
  | [] => Ok true
  | x :: xs' => b <- f x ;; if b then py_all f xs' else Ok false
  end.

(** [d.get(k)]: [None] for a missing key; only a dict has the method. *)
Definition py_get (d : value) (k : str) : result value :=
  match d with
  | VDict d => Ok (match Dict.get d k with Some v => v | None => VNone end)
  | _ => Raise (Exn AttributeError
                  (py "'" ++ type_name d ++ py "' object has no attribute 'get'"))
  end.

(** [d[k]] for a string [k]. *)
Definition py_getitem (d : value) (k : str) : result value :=
  match d with
  | VDict d =>
      match Dict.get d k with
      | Some v => Ok v
      | None => Raise (Exn KeyError (py "'" ++ k ++ py "'"))
      end
  | _ => Raise (Exn TypeError
                  (py "'" ++ type_name d ++ py "' object is not subscriptable"))
  end.

(** ** The interpreter limits a decoder run depends on *)

(** [int_max_str_digits] is [sys.get_int_max_str_digits()]: converting a
    decimal literal of more digits to [int] raises [ValueError] (0 turns
    the check off; it never applies to 640 digits or fewer).
    [recursion_budget] is the number of nested JSON containers the decoder
    can enter before the interpreter raises [RecursionError]. *)
Record interp := Interp {
  int_max_str_digits : N;
  recursion_budget : nat
}.

(** A fresh CPython: 4300 digits, recursion limit 1000. *)
Definition default_interp : interp :=
  {| int_max_str_digits := 4300; recursion_budget := 1000 |}.

(** ** json.loads *)

Module json.

(** The decoder is run in two structurally recursive passes, a tokenizer
    and a stack machine over the tokens; a token is only interpreted (a
    string's escapes checked, an integer converted) when the machine
    consumes it, so that errors come in the order of the text. *)

Definition is_ws (c : N) : bool :=
  ((c =? 32) || (c =? 9) || (c =? 10) || (c =? 13))%N.

Definition is_digit (c : N) : bool := ((48 <=? c) && (c <=? 57))%N.

(** A decoding error before it is formatted: message and position. *)
Definition error : Type := str * N.

Inductive number :=
| NumInt (neg : bool) (digits : str)
| NumFloat (f : pyfloat).

(** The literals [null], [true], [false], [NaN], [Infinity] and
    [-Infinity]. *)
Inductive constant := CNull | CTrue | CFalse | CNaN | CInfinity | CNegInfinity.

Definition value_of_constant (c : constant) : value :=
  match c with
  | CNull => VNone
  | CTrue => VBool true
  | CFalse => VBool false
  | CNaN => VFloat FNaN
  | CInfinity => VFloat (FInf false)
  | CNegInfinity => VFloat (FInf true)
  end.

Inductive token :=
| TLBrace | TRBrace | TLBracket | TRBracket | TColon | TComma
| TString (s : error + str)
| TNumber (n : number)
| TConst (c : constant)
| TBad.

(** *** Strings *)

Definition hex_digit (c : N) : option N :=
  (if is_digit c then Some (c - 48)
   else if (97 <=? c) && (c <=? 102) then Some (c - 87)
   else if (65 <=? c) && (c <=? 70) then Some (c - 55)
   else None)%N.

Definition hex4 (s : str) : option N :=
  match s with
  | a :: b :: c :: d :: _ =>
      match hex_digit a, hex_digit b, hex_digit c, hex_digit d with
      | Some a, Some b, Some c, Some d => Some (((a * 16 + b) * 16 + c) * 16 + d)%N
      | _, _, _, _ => None
      end
  | _ => None
  end.

Definition is_high_surrogate (c : N) : bool := ((55296 <=? c) && (c <=? 56319))%N.
Definition is_low_surrogate (c : N) : bool := ((56320 <=? c) && (c <=? 57343))%N.
Definition join_surrogates (hi lo : N) : N :=
  (65536 + ((hi - 55296) * 1024 + (lo - 56320)))%N.

(** The character a one-letter escape stands for. *)
Definition simple_escape (c : N) : option N :=
  (if (c =? 34) || (c =? 92) || (c =? 47) then Some c
   else if c =? 98 then Some 8
   else if c =? 102 then Some 12
   else if c =? 110 then Some 10
   else if c =? 114 then Some 13
   else if c =? 116 then Some 9
   else None)%N.

(** What a backslash at position [pos] followed by [t] decodes to: the
    code point and the number of characters of [t] it uses. *)
Definition scan_escape (begin pos : N) (t : str) : error + (N * nat) :=
  match t with
  | [] => inl (py "Unterminated string starting at", begin)
  | e :: t' =>
      if N.eqb e 117 then
        if (length t' <? 5)%nat then inl (py "Invalid \uXXXX escape", pos + 1)%N
        else
          match hex4 t' with
          | None => inl (py "Invalid \uXXXX escape", pos + 1)%N
          | Some c =>
              let t2 := skipn 4 t' in
              if is_high_surrogate c && (6 <? length t2)%nat
                 && Py.startswith t2 (py "\u") then
                match hex4 (skipn 2 t2) with
                | None => inl (py "Invalid \uXXXX escape", pos + 7)%N
                | Some c2 =>
                    if is_low_surrogate c2
                    then inr (join_surrogates c c2, 11%nat)
                    else inr (c, 5%nat)
                end
              else inr (c, 5%nat)
          end
      else
        match simple_escape e with
        | Some c => inr (c, 1%nat)
        | None => inl (py "Invalid \escape", pos)
        end
  end.

(** The body of a string literal, from the character after the opening
    quote (at position [begin]): the decoded string and the position
    after the closing quote.  [skip] characters belong to an escape
    already decoded; [acc] holds the decoded characters, last first. *)
Fixpoint scan_chunks (begin : N) (skip : nat) (pos : N) (s acc : str)
    : error + (str * N) :=
  match s with
  | [] => inl (py "Unterminated string starting at", begin)
  | c :: t =>
      match skip with
      | S k => scan_chunks begin k (pos + 1)%N t acc
      | O =>
          if N.eqb c 34 then inr (rev acc, (pos + 1)%N)
          else if N.eqb c 92 then
            match scan_escape begin pos t with
            | inl err => inl err
            | inr (ch, n) => scan_chunks begin n (pos + 1)%N t (ch :: acc)
            end
          else if (c <=? 31)%N then inl (py "Invalid control character at", pos)
          else scan_chunks begin 0 (pos + 1)%N t (c :: acc)
      end
  end.

(** [scanstring]: [s] starts after the opening quote at [begin]. *)
Definition scanstring (begin : N) (s : str) : error + (str * N) :=
  scan_chunks begin 0 (begin + 1)%N s [].

(** *** Numbers *)

Fixpoint span_digits (s : str) : str * str :=
  match s with
  | c :: t => if is_digit c then let '(ds, r) := span_digits t in (c :: ds, r)
              else ([], s)
  | [] => ([], [])
  end.

Definition N_of_digits (ds : str) : N :=
  fold_left (fun acc c => (acc * 10 + (c - 48))%N) ds 0%N.

(** The longest prefix of [s] that is a JSON number: an optional minus,
    an integer part (0, or digits not starting with 0), an optional
    fraction (a dot and digits) and an optional exponent (e or E, an
    optional sign, digits); as a number and its length. *)
Definition match_number (s : str) : option (number * nat) :=
  let '(neg, s1) := match s with
                    | c :: t => if N.eqb c 45 then (true, t) else (false, s)
                    | [] => (false, s)
                    end in
  let int_part :=
    match s1 with
    | c :: t => if N.eqb c 48 then Some ([c], t)
                else if is_digit c then Some (span_digits s1)
                else None
    | [] => None
    end in
  match int_part with
  | None => None
  | Some (ds, r1) =>
      let '(frac, r2) :=
        match r1 with
        | c :: t => if N.eqb c 46 then
                      let '(fd, r) := span_digits t in
                      match fd with [] => (None, r1) | _ => (Some fd, r) end
                    else (None, r1)
        | [] => (None, r1)
        end in
      let '(exp, r3) :=
        match r2 with
        | c :: t =>
            if (N.eqb c 101 || N.eqb c 69) then
              let '(eneg, t1) :=
                match t with
                | c1 :: t' => if N.eqb c1 45 then (true, t')
                              else if N.eqb c1 43 then (false, t')
                              else (false, t)
                | [] => (false, t)
                end in
              let '(ed, r) := span_digits t1 in
              match ed with
              | [] => (None, r2)
              | _ => (Some (if eneg then - Z.of_N (N_of_digits ed)
                            else Z.of_N (N_of_digits ed)), r)
              end
            else (None, r2)
        | [] => (None, r2)
        end in
      let len := (length s - length r3)%nat in
      match frac, exp with
      | None, None => Some (NumInt neg ds, len)
      | _, _ =>
          let fd := match frac with Some fd => fd | None => [] end in
          let e := match exp with Some e => e | None => 0 end in
          Some (NumFloat (FDec neg (N_of_digits (ds ++ fd))
                            (e - Z.of_nat (length fd))), len)
      end
  end.

(** *** Tokens *)

(** The token that starts at the head of [s] (not whitespace), at
    position [pos], and its length. *)
Definition scan_token (pos : N) (s : str) : token * nat :=
  match s with
  | [] => (TBad, 1%nat)
  | c :: t =>
      if N.eqb c 34 then
        match scanstring pos t with
        | inl err => (TString (inl err), 1%nat)
        | inr (v, next) => (TString (inr v), N.to_nat (next - pos))
        end
      else if N.eqb c 123 then (TLBrace, 1%nat)
      else if N.eqb c 125 then (TRBrace, 1%nat)
      else if N.eqb c 91 then (TLBracket, 1%nat)
      else if N.eqb c 93 then (TRBracket, 1%nat)
      else if N.eqb c 58 then (TColon, 1%nat)
      else if N.eqb c 44 then (TComma, 1%nat)
      else if Py.startswith s (py "null") then (TConst CNull, 4%nat)
      else if Py.startswith s (py "true") then (TConst CTrue, 4%nat)
      else if Py.startswith s (py "false") then (TConst CFalse, 5%nat)
      else if Py.startswith s (py "NaN") then (TConst CNaN, 3%nat)
      else if Py.startswith s (py "Infinity") then (TConst CInfinity, 8%nat)
      else if Py.startswith s (py "-Infinity") then (TConst CNegInfinity, 9%nat)
      else match match_number s with
           | Some (n, len) => (TNumber n, len)
           | None => (TBad, 1%nat)
           end
  end.

(** Is the token one the machine can never get past? *)
Definition is_stop (tok : token) : bool :=
  match tok with
  | TBad => true
  | TString (inl _) => true
  | _ => false
  end.

(** The tokens of [s] with their positions; [skip] characters belong to
    the token before.  Tokenizing ends at a token that no state accepts. *)
Fixpoint tokens_from (skip : nat) (pos : N) (s : str) : list (N * token) :=
  match s with
  | [] => []
  | c :: t =>
      match skip with
      | S k => tokens_from k (pos + 1)%N t
      | O =>
          if is_ws c then tokens_from 0 (pos + 1)%N t
          else
            let '(tok, len) := scan_token pos s in
            if is_stop tok then [(pos, tok)]
            else (pos, tok) :: tokens_from (len - 1) (pos + 1)%N t
      end
  end.

Definition tokens (s : str) : list (N * token) := tokens_from 0 0%N s.

(** *** The stack machine *)

(** A container being read: the items of an array (last first), or the
    entries of an object and the key whose value is being read. *)
Inductive frame :=
| FArr (items : list value)
| FObj (d : dict) (key : str).

Inductive pstate :=
| SValue                 (* a value must come *)
| SFirstItem             (* after an opening bracket: a value or the closing one *)
| SFirstKey              (* after an opening brace: a key or the closing one *)
| SKey                   (* after a comma in an object: a key *)
| SColon (key : str)     (* after a key *)
| SAfter                 (* after a value in a container: a comma or the closer *)
| SDone (v : value).     (* the document's value is read *)

(** [str(e)] of a [JSONDecodeError(msg, doc, pos)]. *)
Definition errmsg (doc : str) (err : error) : exn :=
  let '(msg, pos) := err in
  let before := firstn (N.to_nat pos) doc in
  let lineno := (N.of_nat (length (filter (N.eqb 10) before)) + 1)%N in
  let nl := Py.rfind before [10%N] in
  let colno := if nl =? -1 then (pos + 1)%N else Z.to_N (Z.of_N pos - nl) in
  Exn JSONDecodeError
    (msg ++ py ": line " ++ Py.str_of_N lineno ++ py " column "
         ++ Py.str_of_N colno ++ py " (char " ++ Py.str_of_N pos ++ py ")").

(** [int(literal)], with the limit on the number of digits. *)
Definition int_of_literal (I : interp) (neg : bool) (digits : str) : result value :=
  let n := N.of_nat (length digits) in
  if ((640 <? n) && (0 <? int_max_str_digits I) && (int_max_str_digits I <? n))%N
  then Raise (Exn ValueError
                (py "Exceeds the limit (" ++ Py.str_of_N (int_max_str_digits I)
                   ++ py " digits) for integer string conversion: value has "
                   ++ Py.str_of_N n
                   ++ py " digits; use sys.set_int_max_str_digits() to increase the limit"))
  else Ok (VInt (if neg then - Z.of_N (N_of_digits digits)
                 else Z.of_N (N_of_digits digits))).

(** A value [v] is complete: it is the document's, or goes into the
    container on top of the stack. *)
Definition complete (v : value) (stack : list frame) : pstate * list frame :=
  match stack with
  | [] => (SDone v, [])
  | FArr items :: st => (SAfter, FArr (v :: items) :: st)
  | FObj d key :: st => (SAfter, FObj (Dict.set d key v) key :: st)
  end.

(** Entering a container costs one level of recursion. *)
Definition enter (I : interp) (what : str) (st : pstate) (f : frame)
    (stack : list frame) : result (pstate * list frame) :=
  if (length stack <? recursion_budget I)%nat then Ok (st, f :: stack)
  else Raise (Exn RecursionError
                (py "maximum recursion depth exceeded while decoding a JSON "
                   ++ what ++ py " from a unicode string")).

Section Machine.

Variable I : interp.
Variable doc : str.

Definition fail {A} (msg : string) (pos : N) : result A :=
  Raise (errmsg doc (py msg, pos)).

(** The start of a value at [pos]. *)
Definition value_start (pos : N) (tok : token) (stack : list frame)
    : result (pstate * list frame) :=
  match tok with
  | TString (inr s) => Ok (complete (VStr s) stack)
  | TString (inl err) => Raise (errmsg doc err)
  | TNumber (NumInt neg digits) =>
      v <- int_of_literal I neg digits ;; Ok (complete v stack)
  | TNumber (NumFloat f) => Ok (complete (VFloat f) stack)
  | TConst c => Ok (complete (value_of_constant c) stack)
  | TLBrace => enter I (py "object") SFirstKey (FObj [] []) stack
  | TLBracket => enter I (py "array") SFirstItem (FArr []) stack
  | _ => fail "Expecting value" pos
  end.

Definition key_start (pos : N) (tok : token) (stack : list frame)
    : result (pstate * list frame) :=
  match tok with
  | TString (inr k) => Ok (SColon k, stack)
  | TString (inl err) => Raise (errmsg doc err)
  | _ => fail "Expecting property name enclosed in double quotes" pos
  end.

Definition step (st : pstate) (stack : list frame) (pt : N * token)
    : result (pstate * list frame) :=
  let '(pos, tok) := pt in
  match st with
  | SValue => value_start pos tok stack
  | SFirstItem =>
      match tok, stack with
      | TRBracket, FArr items :: stack' => Ok (complete (VList (rev items)) stack')
      | _, _ => value_start pos tok stack
      end
  | SFirstKey =>
      match tok, stack with
      | TRBrace, FObj d _ :: stack' => Ok (complete (VDict d) stack')
      | _, _ => key_start pos tok stack
      end
  | SKey => key_start pos tok stack
  | SColon key =>
      match tok, stack with
      | TColon, FObj d _ :: stack' => Ok (SValue, FObj d key :: stack')
      | _, _ => fail "Expecting ':' delimiter" pos
      end
  | SAfter =>
      match tok, stack with
      | TRBracket, FArr items :: stack' => Ok (complete (VList (rev items)) stack')
      | TComma, FArr _ :: _ => Ok (SValue, stack)
      | TRBrace, FObj d _ :: stack' => Ok (complete (VDict d) stack')
      | TComma, FObj _ _ :: _ => Ok (SKey, stack)
      | _, _ => fail "Expecting ',' delimiter" pos
      end
  | SDone _ => fail "Extra data" pos
  end.

(** The end of the text. *)
Definition finish (st : pstate) : result value :=
  let pos := N.of_nat (length doc) in
  match st with
  | SDone v => Ok v
  | SValue | SFirstItem => fail "Expecting value" pos
  | SFirstKey | SKey => fail "Expecting property name enclosed in double quotes" pos
  | SColon _ => fail "Expecting ':' delimiter" pos
  | SAfter => fail "Expecting ',' delimiter" pos
  end.

Fixpoint run (st : pstate) (stack : list frame) (toks : list (N * token))
    : result value :=
  match toks with
  | [] => finish st
  | pt :: toks' =>
      match step st stack pt with
      | Ok (st', stack') => run st' stack' toks'
      | Raise e => Raise e
      end
  end.

End Machine.

(** [json.loads(s)] for a [str] [s]. *)
Definition loads (I : interp) (s : str) : result value :=
  if Py.startswith s [65279%N]
  then Raise (errmsg s (py "Unexpected UTF-8 BOM (decode using utf-8-sig)", 0%N))
  else run I s SValue [] (tokens s).

End json.

(** ** The LLM client *)

(** The messages handed to the client. *)
Inductive message :=
| SystemMessage (content : str)
| HumanMessage (content : value).

(** What [self.llm.invoke] returns: an object with a [content] attribute
    (a chat model's message), or any other object, of which the planner
    takes [str(response)] (a completion model's text). *)
Inductive llm_response :=
| WithContent (content : str)
| Plain (text : str).

(** A computation that may call the client: each [Invoke] node is one
    call of [self.llm.invoke], continued with what the call does. *)
Inductive prog (A : Type) :=
| Ret (a : A)
| Invoke (messages : list message) (k : result llm_response -> prog A).
Arguments Ret {A} a.
Arguments Invoke {A} messages k.

Fixpoint pbind {A B} (p : prog A) (f : A -> prog B) : prog B :=
  match p with
  | Ret a => f a
  | Invoke m k => Invoke m (fun r => pbind (k r) f)
  end.

(** Running a program against a client: the result and the calls made. *)
Fixpoint run {A} (client : list message -> result llm_response) (p : prog A)
    : A * list (list message) :=
  match p with
  | Ret a => (a, [])
  | Invoke m k => let '(a, calls) := run client (k (client m)) in (a, m :: calls)
  end.

(** ** PlannerNode *)

(** [self]: the attribute the methods read besides the client. *)
Record PlannerNode := { system_prompt : str }.

(** The three literal plans of the source share their shape. *)
Definition single_step_plan (task : value) (summary warning : str) : value :=
  VDict
    [ (py "plan",
       VList
         [ VDict [ (py "step", VInt 1);
                   (py "description", VStr (py "Execute user request"));
                   (py "task", task);
                   (py "category", VStr (py "other")) ] ]);
      (py "summary", VStr summary);
      (py "estimated_time", VStr (py "Unknown"));
      (py "requires_sudo", VBool false);
      (py "warnings", VList [VStr warning]) ].

(** [_parse_response], "If no JSON found, create a basic plan". *)
Definition no_json_plan (response : str) : value :=
  single_step_plan (VStr (Py.strip response)) (py "Execute user request")
    (py "Could not parse detailed plan").

(** [_parse_response], "Fallback to basic plan". *)
Definition parse_error_plan (response : str) : value :=
  single_step_plan (VStr (Py.strip response)) (py "Execute user request")
    (py "Could not parse LLM response").

(** [plan], "Return fallback plan". *)
Definition planning_failed_plan (user_input : value) (e : exn) : value :=
  single_step_plan user_input (py "Execute user request (fallback plan)")
    (py "Planning failed: " ++ exn_str e).

(** [__call__], the plan for an empty input. *)
Definition no_input_plan : value :=
  VDict
    [ (py "plan", VList []);
      (py "summary", VStr (py "No input provided"));
      (py "estimated_time", VStr (py "0 minutes"));
      (py "requires_sudo", VBool false);
      (py "warnings", VList [VStr (py "No user input provided")]) ].

Definition required_fields : list str :=
  [py "step"; py "description"; py "task"; py "category"].

(** [for x in v]: the items of a list, the characters of a string, the
    keys of a dict. *)
Definition py_iter (v : value) : result (list value) :=
  match v with
  | VList l => Ok l
  | VStr s => Ok (List.map (fun c => VStr [c]) s)
  | VDict d => Ok (List.map (fun kv => VStr (fst kv)) d)
  | _ => Raise (Exn TypeError (py "'" ++ type_name v ++ py "' object is not iterable"))
  end.

(** [plan], "Ensure all steps have required fields": the loop. *)
Fixpoint check_steps (steps : list value) : result unit :=
  match steps with
  | [] => Ok tt
  | step :: steps' =>
      ok <- py_all (fun key => py_in key step) required_fields ;;
      if negb ok
      then Raise (Exn ValueError
                    (py "Each step must have step, description, task, and category fields"))
      else check_steps steps'
  end.

Definition is_list (v : value) : bool :=
  match v with VList _ => true | _ => false end.

Section Planner.

Variable self : PlannerNode.
Variable I : interp.

Definition _parse_response (response : str) : result value :=
  try_except
    (if Py.startswith (Py.strip response) (py "{") then json.loads I response
     else
       let start_idx := Py.find response (py "{") in
       let end_idx := Py.rfind response (py "}") + 1 in
       if negb (start_idx =? -1) && negb (end_idx =? -1)
       then json.loads I (Py.slice response start_idx end_idx)
       else Ok (no_json_plan response))
    is_JSONDecodeError
    (fun e => Ok (parse_error_plan response)).

(** The [try] block of [plan] from the client's answer on. *)
Definition plan_try (outcome : result llm_response) : result value :=
  response <- outcome ;;
  let content := match response with
                 | WithContent content => content
                 | Plain text => text
                 end in
  plan <- _parse_response content ;;
  p <- py_get plan (py "plan") ;;
  if negb (is_list p)
  then Raise (Exn ValueError (py "Plan must contain a list of steps"))
  else
    steps <- py_getitem plan (py "plan") ;;
    steps <- py_iter steps ;;
    _ <- check_steps steps ;;
    Ok plan.

Definition plan (user_input : value) : prog (result value) :=
  Invoke [SystemMessage (system_prompt self); HumanMessage user_input]
    (fun outcome =>
       Ret (try_except (plan_try outcome) is_Exception
              (fun e => Ok (planning_failed_plan user_input e)))).

Definition __call__ (state : gmap str value) : prog (result (gmap str value)) :=
  let user_input := default (VStr []) (state !! py "user_input") in
  if negb (truthy user_input)
  then Ret (Ok (<[py "plan" := no_input_plan]> state))
  else
    pbind (plan user_input) (fun r =>
      Ret (plan <- r ;;
           Ok (<[py "failed_steps" := VList []]>
                 (<[py "completed_steps" := VList []]>
                    (<[py "current_step" := VInt 0]>
                       (<[py "plan" := plan]> state)))))).

End Planner.

(** ** Construction *)

(** [dq s] is [py s] with every backquote replaced by a double quote. *)
Definition dq (s : string) : str :=
  List.map (fun c => if N.eqb c 96 then 34%N else c) (py s).
Arguments dq : simpl never.

(** The text [__init__] stores in [self.system_prompt]. *)
Definition system_prompt_text : str :=
  dq "You are an expert system administrator and DevOps engineer. Your job is to break down natural language instructions into clear, actionable steps that can be executed as shell commands.

For each user request, analyze what needs to be done and create a step-by-step plan. Each step should be:
1. Clear and specific
2. Executable as a shell command
3. Safe and follow best practices
4. Ordered logically (dependencies first)

Return your response as a JSON object with the following structure:
{
    `plan`: [
        {
            `step`: 1,
            `description`: `Brief description of what this step does`,
            `task`: `Detailed task description`,
            `category`: `install|configure|start|stop|check|create|delete|update|other`
        }
    ],
    `summary`: `Brief summary of the overall plan`,
    `estimated_time`: `Estimated time to complete (e.g., '2-3 minutes')`,
    `requires_sudo`: true/false,
    `warnings`: [`Any warnings or considerations`]
}

Examples:

User: `install nginx and start the service`
Response:
{
    `plan`: [
        {
            `step`: 1,
            `description`: `Update package manager`,
            `task`: `Update the package manager to ensure we have the latest package information`,
            `category`: `update`
        },
        {
            `step`: 2,
            `description`: `Install nginx`,
            `task`: `Install the nginx web server package`,
            `category`: `install`
        },
        {
            `step`: 3,
            `description`: `Start nginx service`,
            `task`: `Start the nginx service and enable it to start on boot`,
            `category`: `start`
        },
        {
            `step`: 4,
            `description`: `Check nginx status`,
            `task`: `Verify that nginx is running correctly`,
            `category`: `check`
        }
    ],
    `summary`: `Install nginx web server and start the service`,
    `estimated_time`: `2-3 minutes`,
    `requires_sudo`: true,
    `warnings`: [`This will install nginx system-wide`, `Nginx will be accessible on port 80`]
}

User: `show me all running processes`
Response:
{
    `plan`: [
        {
            `step`: 1,
            `description`: `List all running processes`,
            `task`: `Display all currently running processes with detailed information`,
            `category`: `check`
        }
    ],
    `summary`: `Display all running processes`,
    `estimated_time`: `< 1 minute`,
    `requires_sudo`: false,
    `warnings`: []
}

Be thorough but concise. Focus on practical, executable steps.".

(** The client that a constructor call of [_create_llm] builds: the
    class and the arguments of the call, in the order they are
    evaluated. *)
Inductive llm :=
| ChatOpenAI (api_key model : value) (temperature : pyfloat) (timeout : value)
| Ollama (model base_url : value) (temperature : pyfloat).

(** [v == s] for a string literal [s]. *)
Definition py_eq_str (v : value) (s : str) : bool :=
  match v with
  | VStr t => Py.eqb t s
  | _ => false
  end.

(** The literal [0.1]. *)
Definition temperature_0_1 : pyfloat := FDec false 1 (-1).

Section Construction.

(** [str(v)] for a value that is no [str]: Python's [repr], which is not
    modelled. *)
Variable str_of : value -> str.

(** [f"{v}"] *)
Definition format_value (v : value) : str :=
  match v with
  | VStr s => s
  | _ => str_of v
  end.

(** [self.llm_config] is the dict [llm_config]. *)
Definition _create_llm (llm_config : dict) : result llm :=
  let cfg := VDict llm_config in
  t <- py_getitem cfg (py "type") ;;
  if py_eq_str t (py "openai") then
    api_key <- py_getitem cfg (py "api_key") ;;
    model <- py_getitem cfg (py "model") ;;
    timeout <- py_getitem cfg (py "timeout") ;;
    Ok (ChatOpenAI api_key model temperature_0_1 timeout)
  else
    t <- py_getitem cfg (py "type") ;;
    if py_eq_str t (py "ollama") then
      model <- py_getitem cfg (py "model") ;;
      base_url <- py_getitem cfg (py "base_url") ;;
      Ok (Ollama model base_url temperature_0_1)
    else
      t <- py_getitem cfg (py "type") ;;
      Raise (Exn ValueError (py "Unsupported LLM type: " ++ format_value t)).



End Construction.

(** * Vocabulary of the properties *)

(** The classes the decoder raises. *)
Definition decoder_class (c : exn_class) : Prop :=
  c = JSONDecodeError \/ c = ValueError \/ c = RecursionError.

(** The two kinds of JSON containers, of a frame of the machine and of a
    value. *)
Inductive kind := KObj | KArr.

Definition frame_kind (f : json.frame) : kind :=
  match f with
  | json.FArr _ => KArr
  | json.FObj _ _ => KObj
  end.

Definition value_kind (v : value) : option kind :=
  match v with
  | VDict _ => Some KObj
  | VList _ => Some KArr
  | _ => None
  end.

Definition is_done (st : json.pstate) : bool :=
  match st with json.SDone _ => true | _ => false end.

(** The machine is reading a document whose outermost container is of
    kind [k], or has read it. *)
Definition reading (k : kind) (st : json.pstate) (stack : list json.frame) : Prop :=
  match stack with
  | [] => exists v, st = json.SDone v /\ value_kind v = Some k
  | f :: stack' => frame_kind (List.last stack' f) = k /\ is_done st = false
  end.

(** The text [_parse_response] hands to [json.loads]: the response when
    its stripped form starts with an opening brace; otherwise, when the
    response has an opening brace, what lies from the first one through
    the last closing brace; otherwise none. *)
Definition json_text (response : str) : option str :=
  if Py.startswith (Py.strip response) (py "{") then Some response
  else if Py.contains response (py "{")
       then Some (Py.slice response (Py.find response (py "{"))
                    (Py.rfind response (py "}") + 1))
       else None.

(** [p['plan']] when [p] is a dict with a list under that key. *)
Definition plan_steps (p : value) : option (list value) :=
  match p with
  | VDict d => match Dict.get d (py "plan") with
               | Some (VList steps) => Some steps
               | _ => None
               end
  | _ => None
  end.

(** [p['warnings']] *)
Definition plan_warnings (p : value) : option value :=
  match p with
  | VDict d => Dict.get d (py "warnings")
  | _ => None
  end.

(** The field [k] of a step: the step is a dict and has the key. *)
Definition field (step : value) (k : str) : option value :=
  match step with
  | VDict d => Dict.get d k
  | _ => None
  end.

Definition has_required_fields (step : value) : Prop :=
  Forall (fun k => field step k <> None) required_fields.

(** A step the check of [plan] is written to refuse: a dict without one
    of the required keys, or a value that holds nothing. *)
Definition refused_step (step : value) : Prop :=
  match step with
  | VDict d => exists k, In k required_fields /\ Dict.get d k = None
  | VNone | VBool _ | VInt _ | VFloat _ => True
  | VStr _ | VList _ => False
  end.

(** The task of the first step of a plan. *)
Definition first_task (p : value) : option value :=
  match plan_steps p with
  | Some (step :: _) => field step (py "task")
  | _ => None
  end.

(** The categories the system prompt asks for. *)
Definition categories : list str :=
  [py "install"; py "configure"; py "start"; py "stop"; py "check";
   py "create"; py "delete"; py "update"; py "other"].

Definition response_content (response : llm_response) : str :=
  match response with
  | WithContent content => content
  | Plain text => text
  end.

(** The messages [plan] sends. *)
Definition plan_messages (self : PlannerNode) (user_input : value) : list message :=
  [SystemMessage (system_prompt self); HumanMessage user_input].

(** ** Vocabulary of the further properties *)

(** The keys [_create_llm] reads for a backend, in the order it reads
    them. *)
Definition backend_keys (backend : str) : list str :=
  if Py.eqb backend (py "openai") then [py "api_key"; py "model"; py "timeout"]
  else if Py.eqb backend (py "ollama") then [py "model"; py "base_url"]
  else [].

(** The first of [keys] that [d] lacks. *)
Fixpoint first_missing (d : dict) (keys : list str) : option str :=
  match keys with
  | [] => None
  | k :: keys' => match Dict.get d k with
                  | Some _ => first_missing d keys'
                  | None => Some k
                  end
  end.

(** [str(KeyError(k))] for a key that is a plain word. *)
Definition key_error (k : str) : exn := Exn KeyError (py "'" ++ k ++ py "'").

(** Does [None], a bool or a number stand for the step? *)
Definition is_scalar (v : value) : bool :=
  match v with
  | VNone | VBool _ | VInt _ | VFloat _ => true
  | VStr _ | VList _ | VDict _ => false
  end.

(** The four keys [__call__] writes. *)
Definition written_keys : list str :=
  [py "plan"; py "current_step"; py "completed_steps"; py "failed_steps"].

(** The two responses the system prompt shows as examples. *)
Definition prompt_example_1 : str :=
  dq "{
    `plan`: [
        {
            `step`: 1,
            `description`: `Update package manager`,
            `task`: `Update the package manager to ensure we have the latest package information`,
            `category`: `update`
        },
        {
            `step`: 2,
            `description`: `Install nginx`,
            `task`: `Install the nginx web server package`,
            `category`: `install`
        },
        {
            `step`: 3,
            `description`: `Start nginx service`,
            `task`: `Start the nginx service and enable it to start on boot`,
            `category`: `start`
        },
        {
            `step`: 4,
            `description`: `Check nginx status`,
            `task`: `Verify that nginx is running correctly`,
            `category`: `check`
        }
    ],
    `summary`: `Install nginx web server and start the service`,
    `estimated_time`: `2-3 minutes`,
    `requires_sudo`: true,
    `warnings`: [`This will install nginx system-wide`, `Nginx will be accessible on port 80`]
}".

Definition prompt_example_2 : str :=
  dq "{
    `plan`: [
        {
            `step`: 1,
            `description`: `List all running processes`,
            `task`: `Display all currently running processes with detailed information`,
            `category`: `check`
        }
    ],
    `summary`: `Display all running processes`,
    `estimated_time`: `< 1 minute`,
    `requires_sudo`: false,
    `warnings`: []
}".


Definition openai_config_without_timeout : dict :=
  [ (py "type", VStr (py "openai")); (py "api_key", VStr (py "sk-test"));
    (py "model", VStr (py "gpt-4o")) ].

Definition capitalised_config : dict := [ (py "type", VStr (py "OpenAI")) ].

(** ** Inputs the properties are tried on *)

(** A JSON array that is cut short: its closing bracket is missing. *)
Definition truncated_array : str := js "[{'plan': []}".

(** A response whose JSON is followed by prose, with spaces around. *)
Definition json_then_prose : str := js " {'plan': []} and more ".

(** A JSON object with an integer of 4301 digits. *)
Definition long_integer : str := js "{'step': " ++ repeat 49%N 4301 ++ py "}".

(** A plan whose one step is a text that names the four fields. *)
Definition text_step : str := js "{'plan': ['step description task category']}".

(** A plan whose one step has a category the prompt does not list. *)
Definition odd_category : str :=
  js "{'plan': [{'step': 1, 'description': 'd', 'task': 't', 'category': 'reboot'}]}".

(** A node and a client that answers every call with [content]. *)
Definition node : PlannerNode := {| system_prompt := py "You are an expert system administrator." |}.

Definition answering (content : str) : list message -> result llm_response :=
  fun _ => Ok (WithContent content).

(** A client that fails. *)
Definition failing : list message -> result llm_response :=
  fun _ => Raise (Exn (OtherException (py "ConnectionError")) (py "connection refused")).

(** A response with an opening brace and no closing one. *)
Definition open_brace_only : str := py "Use {name as the host".

(** * Properties *)

(** ** The embedding on concrete inputs *)

Example strip_ex : Py.strip (py "  ls -la  ") = py "ls -la".
Proof. reflexivity. Qed.

Example find_ex :
  Py.find (py "run {a} {b}") (py "{") = 4
  /\ Py.rfind (py "run {a} {b}") (py "}") = 10
  /\ Py.find (py "abc") (py "{") = -1
  /\ Py.rfind (py "abc") (py "}") = -1.
Proof. repeat split. Qed.

Example slice_ex :
  Py.slice (py "run {a} {b}") 4 11 = py "{a} {b}"
  /\ Py.slice (py "run {a") 4 0 = []
  /\ Py.slice (py "abcdef") (-2) 100 = py "ef".
Proof. repeat split. Qed.

Example loads_object_ex :
  json.loads default_interp
    (js "{'plan': [{'step': 1, 'task': 'ls'}], 'requires_sudo': false, 'eta': 2.5}")
  = Ok (VDict [ (py "plan", VList [VDict [(py "step", VInt 1); (py "task", VStr (py "ls"))]]);
                (py "requires_sudo", VBool false);
                (py "eta", VFloat (FDec false 25 (-1))) ]).
Proof. vm_compute. reflexivity. Qed.

(** A repeated key keeps its first place and its last value. *)
Example loads_duplicate_ex :
  json.loads default_interp (js "{'a': 1, 'b': 2, 'a': 3}")
  = Ok (VDict [(py "a", VInt 3); (py "b", VInt 2)]).
Proof. vm_compute. reflexivity. Qed.

Example loads_escapes_ex :
  json.loads default_interp (js "'A\n\ud83d\ude00\ud83d'")
  = Ok (VStr [65; 10; 128512; 55357]%N).
Proof. vm_compute. reflexivity. Qed.

Example loads_errors_ex :
  json.loads default_interp []
  = Raise (Exn JSONDecodeError (py "Expecting value: line 1 column 1 (char 0)"))
  /\ json.loads default_interp (py "{")
     = Raise (Exn JSONDecodeError
                (py "Expecting property name enclosed in double quotes: line 1 column 2 (char 1)"))
  /\ json.loads default_interp (js "{'plan': []} and more")
     = Raise (Exn JSONDecodeError (py "Extra data: line 1 column 14 (char 13)"))
  /\ json.loads default_interp (js "'abc")
     = Raise (Exn JSONDecodeError
                (py "Unterminated string starting at: line 1 column 1 (char 0)"))
  /\ json.loads default_interp (js "{'a' 1}")
     = Raise (Exn JSONDecodeError (py "Expecting ':' delimiter: line 1 column 6 (char 5)")).
Proof. repeat split; vm_compute; reflexivity. Qed.

Example loads_recursion_ex :
  json.loads {| int_max_str_digits := 4300; recursion_budget := 2 |} (py "[[[1]]]")
  = Raise (Exn RecursionError
             (py "maximum recursion depth exceeded while decoding a JSON array from a unicode string")).
Proof. vm_compute. reflexivity. Qed.

Example truthy_ex :
  truthy (VStr []) = false /\ truthy (VStr (py "ls")) = true
  /\ truthy VNone = false /\ truthy (VInt 0) = false
  /\ truthy (VFloat (FDec false 0 (-1))) = false /\ truthy (VList [VNone]) = true.
Proof. repeat split. Qed.

(** A step that is a list of the four names passes the check of [plan]
    as the text step of C2 does. *)
Example plan_accepts_list_step :
  fst (run (answering (js "{'plan': [['step', 'description', 'task', 'category']]}"))
         (plan node default_interp (VStr (py "list files"))))
  = Ok (VDict [(py "plan",
                VList [VList [VStr (py "step"); VStr (py "description");
                              VStr (py "task"); VStr (py "category")]])]).
Proof. vm_compute. reflexivity. Qed.

(** A step that is a number makes the check raise, and [plan] fall back. *)
Example plan_refuses_number_step :
  fst (run (answering (js "{'plan': [5]}")) (plan node default_interp (VStr (py "ls"))))
  = Ok (planning_failed_plan (VStr (py "ls"))
          (Exn TypeError (py "argument of type 'int' is not iterable"))).
Proof. vm_compute. reflexivity. Qed.

Lemma Ok_inj {A} (a b : A) : Ok a = Ok b -> a = b.
Proof. congruence. Qed.

Lemma Raise_inj {A} (e e' : exn) : @Raise A e = Raise e' -> e = e'.
Proof. congruence. Qed.

Lemma Ret_inj {A} (a b : A) : Ret a = Ret b -> a = b.
Proof. congruence. Qed.

Ltac case_step :=
  repeat match goal with
         | H : context [match ?x with _ => _ end] |- _ => destruct x eqn:?
         | H : context [if ?b then _ else _] |- _ => destruct b eqn:?
         | H : Ok _ = Ok _ |- _ => apply Ok_inj in H; subst
         | H : Raise _ = Raise _ |- _ => apply Raise_inj in H; subst
         | H : Ok _ = Raise _ |- _ => discriminate H
         | H : Raise _ = Ok _ |- _ => discriminate H
         | H : (_, _) = (_, _) |- _ => apply pair_equal_spec in H as [? ?]; subst
         end.

(** ** Strings *)

Module PyFacts.
Import Py.

Lemma startswith_nil (s : str) : startswith s [] = true.
Proof. now destruct s. Qed.

Lemma startswith_app (a b p : str) :
  startswith a p = true -> startswith (a ++ b) p = true.
Proof.
  revert a; induction p as [|c p IH]; intros a H; [apply startswith_nil|].
  destruct a as [|x a]; simpl in *; [discriminate|].
  apply andb_true_iff in H as [-> H]. simpl. auto.
Qed.

(** [lstrip] only removes a prefix. *)
Lemma lstrip_suffix (s : str) : exists w, s = w ++ lstrip s.
Proof.
  induction s as [|c s [w IH]]; [exists []; reflexivity|].
  simpl. destruct (isspace c).
  - exists (c :: w). simpl. congruence.
  - exists []. reflexivity.
Qed.

(** [rstrip] only removes a suffix. *)
Lemma rstrip_prefix (s : str) : exists w, s = rstrip s ++ w.
Proof.
  unfold rstrip. destruct (lstrip_suffix (rev s)) as [w Hw].
  exists (rev w). rewrite <- rev_app_distr, <- Hw. symmetry. apply rev_involutive.
Qed.

Lemma startswith_rstrip (s p : str) :
  startswith (rstrip s) p = true -> startswith s p = true.
Proof.
  intros H. destruct (rstrip_prefix s) as [w Hw]. rewrite Hw.
  now apply startswith_app.
Qed.

Lemma lstrip_snoc (s : str) (c : N) :
  isspace c = false -> lstrip (s ++ [c]) = lstrip s ++ [c].
Proof.
  intros Hc. induction s as [|x s IH]; simpl; [now rewrite Hc|].
  destruct (isspace x); auto.
Qed.

(** A leading character that is no space survives [rstrip]. *)
Lemma rstrip_cons (c : N) (t : str) :
  isspace c = false -> exists t', rstrip (c :: t) = c :: t'.
Proof.
  intros Hc. unfold rstrip. simpl rev. rewrite (lstrip_snoc _ _ Hc).
  rewrite rev_app_distr. simpl. eauto.
Qed.

Lemma startswith_char (x c : N) (s : str) : startswith (x :: s) [c] = N.eqb c x.
Proof. simpl. rewrite startswith_nil. apply andb_true_r. Qed.

Lemma find_from_cons (x c : N) (s : str) (i : Z) :
  find_from (x :: s) [c] i = if N.eqb c x then i else find_from s [c] (i + 1).
Proof. cbn [find_from]. now rewrite startswith_char. Qed.

Lemma rfind_from_cons (x c : N) (s : str) (i : Z) :
  rfind_from (x :: s) [c] i =
  if rfind_from s [c] (i + 1) =? -1 then (if N.eqb c x then i else -1)
  else rfind_from s [c] (i + 1).
Proof. cbn [rfind_from]. now rewrite startswith_char. Qed.

(** The result of [find_from] is -1 or the index of an occurrence. *)
Lemma find_from_char (s : str) (c : N) (i : Z) :
  find_from s [c] i = -1 \/
  exists k t, find_from s [c] i = i + Z.of_nat k /\ skipn k s = c :: t.
Proof.
  revert i; induction s as [|x s IH]; intros i; [now left|].
  rewrite find_from_cons.
  destruct (N.eqb_spec c x) as [->|Hne].
  - right. exists 0%nat, s. split; [lia | reflexivity].
  - destruct (IH (i + 1)) as [H | (k & t & H1 & H2)]; [now left|].
    right. exists (S k), t. split; [lia | exact H2].
Qed.

Lemma find_from_absent (s : str) (c : N) (i : Z) :
  0 <= i -> (find_from s [c] i = -1 <-> ~ In c s).
Proof.
  revert i; induction s as [|x s IH]; intros i Hi.
  - simpl. tauto.
  - rewrite find_from_cons. destruct (N.eqb_spec c x) as [->|Hne].
    + split; [lia | intros H; exfalso; apply H; now left].
    + rewrite IH by lia. simpl.
      split; [intros H [E|E]; [congruence | tauto] | tauto].
Qed.

Lemma rfind_from_range (s sub : str) (i : Z) :
  0 <= i -> rfind_from s sub i = -1 \/ i <= rfind_from s sub i.
Proof.
  revert i; induction s as [|x s IH]; intros i Hi; simpl.
  - destruct sub; [right; lia | now left].
  - destruct (IH (i + 1)) as [H | H]; [lia | |].
    + rewrite H. simpl. destruct sub as [|p sub]; [right; lia|].
      destruct (N.eqb p x && startswith s sub); [right; lia | now left].
    + destruct (Z.eqb_spec (rfind_from s sub (i + 1)) (-1)); [lia | right; lia].
Qed.

Lemma rfind_from_absent (s : str) (c : N) (i : Z) :
  0 <= i -> ~ In c s -> rfind_from s [c] i = -1.
Proof.
  revert i; induction s as [|x s IH]; intros i Hi Hn; [reflexivity|].
  rewrite rfind_from_cons.
  rewrite IH; [| lia | intros H; apply Hn; now right]. simpl.
  destruct (N.eqb_spec c x) as [->|Hne]; [exfalso; apply Hn; now left | reflexivity].
Qed.

(** [str.rfind] never returns less than -1. *)
Lemma rfind_ge (s sub : str) : -1 <= rfind s sub.
Proof. unfold rfind. destruct (rfind_from_range s sub 0); lia. Qed.

Lemma length_skipn_cons {A} (k : nat) (s : list A) (c : A) (t : list A) :
  skipn k s = c :: t -> (k < length s)%nat.
Proof.
  intros H. destruct (Nat.lt_ge_cases k (length s)) as [Hlt|Hge]; [exact Hlt|].
  rewrite skipn_all2 in H by exact Hge. discriminate.
Qed.

(** A slice that starts at an occurrence of [c] is empty or starts with
    [c]. *)
Lemma slice_from_find (s : str) (c : N) (b : Z) :
  find s [c] <> -1 ->
  slice s (find s [c]) b = [] \/ exists t, slice s (find s [c]) b = c :: t.
Proof.
  intros Hne. unfold find in *.
  destruct (find_from_char s c 0) as [H | (k & t & H1 & H2)]; [contradiction|].
  rewrite H1. unfold slice.
  pose proof (length_skipn_cons _ _ _ _ H2) as Hk.
  replace (slice_bound (Z.of_nat (length s)) (0 + Z.of_nat k)) with (Z.of_nat k).
  2:{ unfold slice_bound. destruct (Z.ltb_spec (0 + Z.of_nat k) 0); lia. }
  rewrite Nat2Z.id, H2.
  destruct (Z.to_nat _); [now left | right; simpl; eauto].
Qed.

(** With no occurrence of [c], the slice that ends at [rfind + 1] is
    empty wherever it starts from the front. *)
Lemma slice_to_zero (s : str) (a : Z) : 0 <= a -> slice s a 0 = [].
Proof.
  intros Ha. unfold slice, slice_bound.
  destruct (Z.ltb_spec a 0); [lia|].
  destruct (Z.ltb_spec 0 0); [lia|].
  set (len := Z.of_nat (length s)).
  replace (Z.to_nat (Z.min 0 len - Z.min a len)) with 0%nat by lia. reflexivity.
Qed.

End PyFacts.

(** ** The decoder *)

Module JsonFacts.
Import json.

(** Decoding the empty text fails with a [JSONDecodeError]. *)
Lemma loads_nil (I : interp) :
  loads I [] = Raise (errmsg [] (py "Expecting value", 0%N)).
Proof. reflexivity. Qed.

Lemma errmsg_cls (doc : str) (err : error) : exn_cls (errmsg doc err) = JSONDecodeError.
Proof. now destruct err. Qed.

Lemma step_raises I doc st stack pt e :
  step I doc st stack pt = Raise e -> decoder_class (exn_cls e).
Proof.
  unfold step, value_start, key_start, enter, int_of_literal, fail, bind, decoder_class.
  intros H. case_step; rewrite ?errmsg_cls; simpl; auto.
Qed.

Lemma run_raises I doc toks : forall st stack e,
  run I doc st stack toks = Raise e -> decoder_class (exn_cls e).
Proof.
  induction toks as [|pt toks IH]; intros st stack e H; simpl in H.
  - unfold finish, fail in H. case_step; rewrite errmsg_cls; now left.
  - destruct (step I doc st stack pt) as [[st' stack']|e'] eqn:Hs.
    + eauto.
    + apply Raise_inj in H; subst. eapply step_raises; eauto.
Qed.

(** [json.loads] raises nothing but [JSONDecodeError], the [ValueError]
    of an integer literal over the digit limit, and [RecursionError]. *)
Lemma loads_raises I s e : loads I s = Raise e -> decoder_class (exn_cls e).
Proof.
  unfold loads. destruct (Py.startswith s _).
  - intros H; apply Raise_inj in H; subst. rewrite errmsg_cls. now left.
  - apply run_raises.
Qed.

Lemma last_cons_default {A} (x : A) (l : list A) (a b : A) :
  List.last (x :: l) a = List.last (x :: l) b.
Proof. revert x; induction l as [|y l IH]; intros x; [reflexivity|]. apply (IH y). Qed.

Lemma last_kind (l : list frame) (a b : frame) :
  frame_kind a = frame_kind b ->
  frame_kind (List.last l a) = frame_kind (List.last l b).
Proof.
  intros H. destruct l as [|x l]; [exact H|]. f_equal. apply last_cons_default.
Qed.

(** The kind of the outermost container is kept by every step. *)
Lemma step_reading I doc k st stack pt st' stack' :
  reading k st stack ->
  step I doc st stack pt = Ok (st', stack') ->
  reading k st' stack'.
Proof.
  unfold step, value_start, key_start, enter, complete, int_of_literal, fail, bind.
  intros Hr H. destruct stack as [|f stack].
  - destruct Hr as (v & -> & Hv). destruct pt. discriminate.
  - destruct Hr as [Hk Hd].
    case_step; simpl in *; try discriminate; eauto;
      try (split; [assumption | reflexivity]).
  all: split; [|reflexivity].
  all: repeat match goal with
              | |- context [match ?l with [] => _ | _ :: _ => _ end] => destruct l
              end.
  all: solve [ reflexivity
             | apply last_kind; reflexivity
             | f_equal; apply last_cons_default ].
Qed.

Lemma run_reading I doc k toks : forall st stack v,
  reading k st stack ->
  run I doc st stack toks = Ok v ->
  value_kind v = Some k.
Proof.
  induction toks as [|pt toks IH]; intros st stack v Hr H; simpl in H.
  - destruct stack as [|f stack].
    + destruct Hr as (v' & -> & Hv). simpl in H. congruence.
    + destruct Hr as [_ Hd]. destruct st; simpl in Hd; try discriminate;
        unfold finish, fail in H; discriminate.
  - destruct (step I doc st stack pt) as [[st' stack']|e'] eqn:Hs; [|discriminate].
    eapply IH; [eapply step_reading; eauto | exact H].
Qed.

(** *** The first token *)


(** The other characters [str.strip] removes start no token. *)
Lemma scan_token_space (pos c : N) (t : str) :
  Py.isspace c = true -> is_ws c = false -> scan_token pos (c :: t) = (TBad, 1%nat).
Proof.
  unfold Py.isspace, is_ws.
  rewrite !orb_true_iff, !andb_true_iff, !orb_false_iff, !N.leb_le, !N.eqb_eq, !N.eqb_neq.
  intros Hs Hw.
  assert (c = 11 \/ c = 12 \/ c = 28 \/ c = 29 \/ c = 30 \/ c = 31 \/ c = 133
          \/ c = 160 \/ c = 5760 \/ c = 8192 \/ c = 8193 \/ c = 8194 \/ c = 8195
          \/ c = 8196 \/ c = 8197 \/ c = 8198 \/ c = 8199 \/ c = 8200 \/ c = 8201
          \/ c = 8202 \/ c = 8232 \/ c = 8233 \/ c = 8239 \/ c = 8287
          \/ c = 12288)%N as Hc by lia.
  clear Hs Hw.
  repeat (destruct Hc as [-> | Hc]; [reflexivity|]). subst; reflexivity.
Qed.

Lemma scan_token_lbrace_start (pos : N) (t : str) :
  scan_token pos (123%N :: t) = (TLBrace, 1%nat).
Proof. reflexivity. Qed.


(** A text whose stripped form starts with an opening brace has that
    brace as its first token, unless a character that is a space for
    Python and not for JSON comes before. *)
Lemma tokens_from_brace_start (s : str) : forall pos,
  Py.startswith (Py.lstrip s) (py "{") = true ->
  (exists rest, exists p, tokens_from 0 pos s = (p, TLBrace) :: rest)
  \/ (exists p, tokens_from 0 pos s = [(p, TBad)]).
Proof.
  induction s as [|c t IH]; intros pos H; [discriminate|].
  cbn [Py.lstrip] in H. cbn [tokens_from].
  destruct (Py.isspace c) eqn:Hsp.
  - destruct (is_ws c) eqn:Hws; [now apply IH|].
    rewrite (scan_token_space _ _ _ Hsp Hws). right. simpl. eauto.
  - assert (c = 123%N) as ->.
    { change (py "{") with [123%N] in H.
      rewrite PyFacts.startswith_char in H. apply N.eqb_eq in H. now symmetry. }
    left. simpl. eauto.
Qed.


(** *** What the document's first token decides *)

Lemma run_first_lbrace I doc p rest v :
  run I doc SValue [] ((p, TLBrace) :: rest) = Ok v -> exists d, v = VDict d.
Proof.
  cbn [run step value_start]. unfold enter.
  destruct (_ <? _)%nat; [|discriminate].
  intros H. apply (run_reading I doc KObj) in H; [|simpl; auto].
  destruct v; try discriminate. eauto.
Qed.



(** [json.loads] of a text whose stripped form starts with an opening
    brace returns a dict when it returns. *)
Lemma loads_brace_dict I s v :
  Py.startswith (Py.strip s) (py "{") = true ->
  loads I s = Ok v -> exists d, v = VDict d.
Proof.
  intros Hs. apply PyFacts.startswith_rstrip in Hs.
  unfold loads, tokens. destruct (Py.startswith s _); [discriminate|].
  destruct (tokens_from_brace_start s 0%N Hs) as [(rest & p & ->) | (p & ->)].
  - apply run_first_lbrace.
  - discriminate.
Qed.

(** [json.loads] of a text that starts with an opening brace. *)
Lemma loads_cons_brace I t v :
  loads I (123%N :: t) = Ok v -> exists d, v = VDict d.
Proof.
  apply loads_brace_dict. unfold Py.strip. cbn [Py.lstrip].
  change (Py.isspace 123) with false. cbv iota.
  destruct (PyFacts.rstrip_cons 123 t eq_refl) as [t' ->].
  change (py "{") with [123%N]. now rewrite PyFacts.startswith_char.
Qed.


End JsonFacts.

(** ** _parse_response *)

Section ParseResponse.

Variable I : interp.

Lemma try_except_all {A} (body : result A) (h : exn -> result A) :
  try_except body is_Exception h = match body with Ok a => Ok a | Raise e => h e end.
Proof. now destruct body. Qed.

(** The guard on [end_idx] never decides: [_parse_response] parses
    [json_text], and falls back when there is none. *)
Lemma parse_response_eq (response : str) :
  _parse_response I response =
  match json_text response with
  | Some t => try_except (json.loads I t) is_JSONDecodeError
                (fun _ => Ok (parse_error_plan response))
  | None => Ok (no_json_plan response)
  end.
Proof.
  unfold _parse_response, json_text, Py.contains.
  destruct (Py.startswith _ _); [reflexivity|].
  pose proof (PyFacts.rfind_ge response (py "}")) as Hr.
  destruct (Z.eqb_spec (Py.rfind response (py "}") + 1) (-1)) as [E|_]; [lia|].
  destruct (Py.find response (py "{") =? -1); reflexivity.
Qed.

(** The text handed to [json.loads] is empty or starts with an opening
    brace once stripped. *)
Lemma json_text_brace (response t : str) :
  json_text response = Some t ->
  t = [] \/ Py.startswith (Py.strip t) (py "{") = true.
Proof.
  unfold json_text, Py.contains.
  destruct (Py.startswith _ _) eqn:Hs.
  - intros [= <-]. now right.
  - destruct (Z.eqb_spec (Py.find response (py "{")) (-1)) as [_|Hne]; [discriminate|].
    intros [= <-]. change (py "{") with [123%N] in *.
    destruct (PyFacts.slice_from_find response 123 (Py.rfind response (py "}") + 1) Hne)
      as [-> | [t' ->]]; [now left|].
    right. unfold Py.strip. cbn [Py.lstrip]. change (Py.isspace 123) with false. cbv iota.
    destruct (PyFacts.rstrip_cons 123 t' eq_refl) as [t'' ->].
    now rewrite PyFacts.startswith_char.
Qed.

Lemma json_text_loads_dict (response t : str) (v : value) :
  json_text response = Some t -> json.loads I t = Ok v -> exists d, v = VDict d.
Proof.
  intros Ht Hl. destruct (json_text_brace _ _ Ht) as [-> | Hb].
  - rewrite JsonFacts.loads_nil in Hl. discriminate.
  - eapply JsonFacts.loads_brace_dict; eauto.
Qed.

(** What [_parse_response] returns is a dict. *)
Lemma parse_response_dict (response : str) (v : value) :
  _parse_response I response = Ok v -> exists d, v = VDict d.
Proof.
  rewrite parse_response_eq. destruct (json_text response) as [t|] eqn:Ht.
  - destruct (json.loads I t) as [v'|e] eqn:Hl; simpl.
    + intros [= <-]. eapply json_text_loads_dict; eauto.
    + destruct (is_JSONDecodeError _); [|discriminate].
      intros [= <-]. unfold parse_error_plan, single_step_plan. eauto.
  - intros [= <-]. unfold no_json_plan, single_step_plan. eauto.
Qed.

Lemma contains_find (s : str) (c : N) :
  Py.contains s [c] = true -> 0 <= Py.find s [c].
Proof.
  unfold Py.contains, Py.find. intros H.
  destruct (PyFacts.find_from_char s c 0) as [E | (k & t & E & _)]; rewrite E in *.
  - discriminate.
  - lia.
Qed.

Lemma not_contains_rfind (s : str) (c : N) :
  Py.contains s [c] = false -> Py.rfind s [c] = -1.
Proof.
  unfold Py.contains, Py.find, Py.rfind. intros H.
  apply negb_false_iff, Z.eqb_eq in H.
  apply PyFacts.rfind_from_absent; [lia|].
  now apply (PyFacts.find_from_absent s c 0).
Qed.

Lemma single_step_plan_fields (task : value) (summary warning : str) :
  exists step,
    plan_steps (single_step_plan task summary warning) = Some [step]
    /\ has_required_fields step
    /\ field step (py "category") = Some (VStr (py "other"))
    /\ field step (py "task") = Some task.
Proof.
  eexists. split; [reflexivity|]. split; [|split; reflexivity].
  repeat constructor; discriminate.
Qed.

End ParseResponse.

(** C4, as amended.  When the text handed to [json.loads] is rejected
    with a [JSONDecodeError], or the response has no opening brace,
    [_parse_response] returns one of its two fallback plans: a dict whose
    plan list has exactly one step, with the four required fields,
    category "other" and the stripped response as its task. *)
Theorem parse_response_fallback (I : interp) (response : str) :
  (json_text response = None
   \/ exists t e, json_text response = Some t /\ json.loads I t = Raise e
                  /\ exn_cls e = JSONDecodeError) ->
  exists p step,
    _parse_response I response = Ok p
    /\ (p = no_json_plan response \/ p = parse_error_plan response)
    /\ plan_steps p = Some [step]
    /\ has_required_fields step
    /\ field step (py "category") = Some (VStr (py "other"))
    /\ field step (py "task") = Some (VStr (Py.strip response)).
Proof.
  intros H. rewrite parse_response_eq.
  destruct H as [-> | (t & e & -> & -> & Hc)].
  - destruct (single_step_plan_fields (VStr (Py.strip response))
                (py "Execute user request") (py "Could not parse detailed plan"))
      as (step & H1 & H2 & H3 & H4).
    exists (no_json_plan response), step. auto 10.
  - unfold try_except. rewrite Hc. cbn [is_JSONDecodeError].
    destruct (single_step_plan_fields (VStr (Py.strip response))
                (py "Execute user request") (py "Could not parse LLM response"))
      as (step & H1 & H2 & H3 & H4).
    exists (parse_error_plan response), step. auto 10.
Qed.

(** The fallback for a response whose extracted text is empty. *)
Lemma parse_response_fallback_witness :
  exists p step,
    _parse_response default_interp open_brace_only = Ok p
    /\ (p = no_json_plan open_brace_only \/ p = parse_error_plan open_brace_only)
    /\ plan_steps p = Some [step]
    /\ has_required_fields step
    /\ field step (py "category") = Some (VStr (py "other"))
    /\ field step (py "task") = Some (VStr (Py.strip open_brace_only)).
Proof.
  apply (parse_response_fallback default_interp open_brace_only).
  right. exists [], (json.errmsg [] (py "Expecting value", 0%N)).
  repeat split; reflexivity.
Defined.

(** C4 as stated fails: a response that is malformed JSON (an array
    that is never closed) is not answered with a single-step plan; the
    object inside it is returned, here with no step at all. *)
Lemma malformed_response_parsed :
  (exists e, json.loads default_interp truncated_array = Raise e
             /\ exn_cls e = JSONDecodeError)
  /\ exists p, _parse_response default_interp truncated_array = Ok p
               /\ plan_steps p = Some [].
Proof.
  split.
  - eexists. split; [vm_compute; reflexivity | reflexivity].
  - eexists. split; [vm_compute; reflexivity | reflexivity].
Qed.

(** C5, as amended.  [_parse_response] proceeds in this order.  When the
    stripped response starts with an opening brace, the response itself
    is parsed, and a [JSONDecodeError] of that parse gives the fallback
    plan at once: no extraction is tried.  Otherwise, when the response
    has an opening brace, what lies from the first opening brace through
    the last closing brace is parsed, a [JSONDecodeError] giving the
    fallback plan.  Otherwise the fallback plan is returned.  The task of
    a fallback plan is the stripped response. *)
Theorem parse_response_order (I : interp) (response : str) :
  let guarded text :=
    try_except (json.loads I text) is_JSONDecodeError
      (fun _ => Ok (parse_error_plan response)) in
  let extracted :=
    Py.slice response (Py.find response (py "{")) (Py.rfind response (py "}") + 1) in
  (if Py.startswith (Py.strip response) (py "{")
   then _parse_response I response = guarded response
   else if Py.contains response (py "{")
        then _parse_response I response = guarded extracted
        else _parse_response I response = Ok (no_json_plan response))
  /\ first_task (parse_error_plan response) = Some (VStr (Py.strip response))
  /\ first_task (no_json_plan response) = Some (VStr (Py.strip response)).
Proof.
  cbv zeta. rewrite parse_response_eq. unfold json_text.
  destruct (Py.startswith _ _); [|destruct (Py.contains _ _)]; repeat split.
Qed.

(** C5 as stated fails twice on one response: the direct parse fails and
    the fallback plan is returned although the text between the first
    opening and the last closing brace parses; and the task of that plan
    is the stripped response, not the response. *)
Lemma fallback_without_extraction :
  let r := json_then_prose in
  _parse_response default_interp r = Ok (parse_error_plan r)
  /\ json.loads default_interp
       (Py.slice r (Py.find r (py "{")) (Py.rfind r (py "}") + 1))
     = Ok (VDict [(py "plan", VList [])])
  /\ first_task (parse_error_plan r) = Some (VStr (Py.strip r))
  /\ Py.strip r <> r.
Proof.
  cbv zeta. split; [vm_compute; reflexivity|].
  split; [vm_compute; reflexivity|].
  split; [reflexivity|]. vm_compute. discriminate.
Qed.



(** C9, as amended.  [_parse_response] returns a dict for every string,
    the empty one and those with unbalanced braces included, unless
    [json.loads] raises an exception that is no [JSONDecodeError]: the
    [ValueError] of an integer literal over the interpreter's digit
    limit, or a [RecursionError].  The handler of [_parse_response] does
    not guard those, and they leave it. *)
Theorem parse_response_total (I : interp) (response : str) :
  (exists d, _parse_response I response = Ok (VDict d))
  \/ (exists e t, _parse_response I response = Raise e
                  /\ json_text response = Some t
                  /\ json.loads I t = Raise e
                  /\ (exn_cls e = ValueError \/ exn_cls e = RecursionError)).
Proof.
  destruct (_parse_response I response) as [v|e] eqn:Hp.
  - left. destruct (parse_response_dict _ _ _ Hp) as [d ->]. eauto.
  - right. rewrite parse_response_eq in Hp.
    destruct (json_text response) as [t|]; [|discriminate].
    destruct (json.loads I t) as [v|e'] eqn:Hl; [discriminate|].
    pose proof (JsonFacts.loads_raises _ _ _ Hl) as Hc.
    unfold try_except in Hp.
    destruct (is_JSONDecodeError (exn_cls e')) eqn:Hj; [discriminate|].
    apply Raise_inj in Hp; subst e'.
    exists e, t. repeat split; auto.
    destruct Hc as [Hc | Hc]; [rewrite Hc in Hj; discriminate | exact Hc].
Qed.

(** C9 as stated fails: on a JSON object with an integer of 4301 digits
    [_parse_response] raises the [ValueError] of [json.loads]. *)
Lemma parse_response_raises :
  _parse_response default_interp long_integer =
  Raise (Exn ValueError
           (py "Exceeds the limit (4300 digits) for integer string conversion: value has 4301 digits; use sys.set_int_max_str_digits() to increase the limit")).
Proof. vm_compute. reflexivity. Qed.

(** C10.  The guard on [end_idx] is vacuous: [rfind] is at least -1.  A
    response with an opening brace, no closing brace, and whose stripped
    form does not start with an opening brace has [end_idx] 0, an empty
    extracted text, which [json.loads] rejects with a [JSONDecodeError],
    and gets the fallback plan of the handler, with the warning "Could
    not parse LLM response", not the plan for a response without JSON. *)
Theorem end_idx_guard_vacuous (I : interp) (response : str) :
  Py.contains response (py "{") = true ->
  Py.contains response (py "}") = false ->
  Py.startswith (Py.strip response) (py "{") = false ->
  let start_idx := Py.find response (py "{") in
  let end_idx := Py.rfind response (py "}") + 1 in
  (forall r, Py.rfind r (py "}") + 1 <> -1)
  /\ start_idx <> -1 /\ end_idx = 0
  /\ Py.slice response start_idx end_idx = []
  /\ (exists e, json.loads I (Py.slice response start_idx end_idx) = Raise e
                /\ exn_cls e = JSONDecodeError)
  /\ _parse_response I response = Ok (parse_error_plan response)
  /\ plan_warnings (parse_error_plan response)
     = Some (VList [VStr (py "Could not parse LLM response")])
  /\ parse_error_plan response <> no_json_plan response.
Proof.
  intros Ho Hc Hs. cbv zeta.
  change (py "{") with [123%N] in *. change (py "}") with [125%N] in *.
  pose proof (contains_find _ _ Ho) as Hf.
  pose proof (not_contains_rfind _ _ Hc) as Hr.
  assert (Py.slice response (Py.find response [123%N]) (Py.rfind response [125%N] + 1) = [])
    as Hsl by (rewrite Hr; now apply PyFacts.slice_to_zero).
  split; [intros r; pose proof (PyFacts.rfind_ge r [125%N]); lia|].
  split; [lia|]. split; [lia|]. split; [exact Hsl|].
  split; [rewrite Hsl, JsonFacts.loads_nil; eexists; split; reflexivity|].
  split.
  - rewrite parse_response_eq. unfold json_text.
    change (py "{") with [123%N]. change (py "}") with [125%N].
    rewrite Hs, Ho, Hsl. reflexivity.
  - split; [reflexivity | discriminate].
Qed.

(** The response [open_brace_only] takes that path. *)
Lemma end_idx_guard_vacuous_witness :
  let response := open_brace_only in
  let start_idx := Py.find response (py "{") in
  let end_idx := Py.rfind response (py "}") + 1 in
  (forall r, Py.rfind r (py "}") + 1 <> -1)
  /\ start_idx <> -1 /\ end_idx = 0
  /\ Py.slice response start_idx end_idx = []
  /\ (exists e, json.loads default_interp (Py.slice response start_idx end_idx) = Raise e
                /\ exn_cls e = JSONDecodeError)
  /\ _parse_response default_interp response = Ok (parse_error_plan response)
  /\ plan_warnings (parse_error_plan response)
     = Some (VList [VStr (py "Could not parse LLM response")])
  /\ parse_error_plan response <> no_json_plan response.
Proof.
  apply (end_idx_guard_vacuous default_interp open_brace_only); reflexivity.
Defined.

(** ** plan *)

Section Plan.

Variable self : PlannerNode.
Variable I : interp.

Lemma py_all_true {A} (f : A -> result bool) (xs : list A) :
  py_all f xs = Ok true -> Forall (fun x => f x = Ok true) xs.
Proof.
  induction xs as [|x xs IH]; simpl; [constructor|].
  destruct (f x) as [[|]|e] eqn:Hx; simpl; try discriminate.
  intros H. constructor; auto.
Qed.

(** The steps that pass the check hold the four names, in the sense of
    Python's [in]. *)
Lemma check_steps_ok (steps : list value) (u : unit) :
  check_steps steps = Ok u ->
  Forall (fun step => Forall (fun k => py_in k step = Ok true) required_fields) steps.
Proof.
  induction steps as [|step steps IH]; [constructor|].
  cbn [check_steps]. unfold bind at 1.
  destruct (py_all (fun key => py_in key step) required_fields) as [[|]|e] eqn:Ha;
    cbn [negb]; try discriminate.
  intros H. constructor; [now apply py_all_true | auto].
Qed.

(** A dict step without one of the keys, and a step that holds nothing,
    make the check raise. *)
Lemma check_steps_refused (steps : list value) (step : value) :
  In step steps -> refused_step step -> exists e, check_steps steps = Raise e.
Proof.
  intros Hin Hr. destruct (check_steps steps) as [u|e] eqn:Hc; [|eauto].
  exfalso. apply check_steps_ok in Hc. rewrite List.Forall_forall in Hc.
  specialize (Hc step Hin). rewrite List.Forall_forall in Hc.
  destruct step; simpl in Hr; try contradiction;
    try (specialize (Hc (py "step") (or_introl eq_refl)); discriminate).
  destruct Hr as (k & Hk & Hg). specialize (Hc k Hk). simpl in Hc. now rewrite Hg in Hc.
Qed.

(** A dict step that passes the check has the four fields. *)
Lemma check_steps_dict (steps : list value) (u : unit) (d : dict) :
  check_steps steps = Ok u -> In (VDict d) steps -> has_required_fields (VDict d).
Proof.
  intros Hc Hin. apply check_steps_ok in Hc. rewrite List.Forall_forall in Hc.
  specialize (Hc _ Hin). unfold has_required_fields.
  eapply List.Forall_impl; [|exact Hc]. simpl. intros k Hk.
  destruct (Dict.get d k); [discriminate | discriminate].
Qed.

(** What [plan] returns, and the one call it makes. *)
Lemma run_plan (user_input : value) (client : list message -> result llm_response) :
  run client (plan self I user_input) =
  (match plan_try I (client (plan_messages self user_input)) with
   | Ok p => Ok p
   | Raise e => Ok (planning_failed_plan user_input e)
   end, [plan_messages self user_input]).
Proof.
  unfold plan. cbn [run]. rewrite try_except_all. reflexivity.
Qed.

(** The [try] block once the response is parsed. *)
Lemma plan_try_parsed (response : llm_response) (v : value) :
  _parse_response I (response_content response) = Ok v ->
  plan_try I (Ok response) =
  match plan_steps v with
  | Some steps => _ <- check_steps steps ;; Ok v
  | None => Raise (Exn ValueError (py "Plan must contain a list of steps"))
  end.
Proof.
  intros Hp. destruct (parse_response_dict _ _ _ Hp) as [d ->].
  unfold plan_try. cbn [bind].
  replace (match response with WithContent c => c | Plain t => t end)
    with (response_content response) by now destruct response.
  rewrite Hp. cbn [bind py_get py_getitem plan_steps].
  destruct (Dict.get d (py "plan")) as [[]|]; reflexivity.
Qed.

Lemma plan_try_raised (response : llm_response) (e : exn) :
  _parse_response I (response_content response) = Raise e ->
  plan_try I (Ok response) = Raise e.
Proof.
  intros Hp. unfold plan_try. cbn [bind].
  replace (match response with WithContent c => c | Plain t => t end)
    with (response_content response) by now destruct response.
  now rewrite Hp.
Qed.

(** A plan that [plan_try] returns is the parsed response, and has
    passed the checks. *)
Lemma plan_try_ok (outcome : result llm_response) (p : value) :
  plan_try I outcome = Ok p ->
  exists response steps,
    outcome = Ok response
    /\ _parse_response I (response_content response) = Ok p
    /\ plan_steps p = Some steps
    /\ check_steps steps = Ok tt.
Proof.
  destruct outcome as [response|e]; [|discriminate].
  destruct (_parse_response I (response_content response)) as [v|e] eqn:Hp.
  - rewrite (plan_try_parsed _ _ Hp).
    destruct (plan_steps v) as [steps|] eqn:Hs; [|discriminate].
    destruct (check_steps steps) as [[]|e] eqn:Hc; [|discriminate].
    simpl. intros [= <-]. eauto 10.
  - now rewrite (plan_try_raised _ _ Hp).
Qed.

Lemma plan_steps_single (task : value) (summary warning : str) :
  exists step, plan_steps (single_step_plan task summary warning) = Some [step]
               /\ check_steps [step] = Ok tt
               /\ field step (py "category") = Some (VStr (py "other")).
Proof. eexists. repeat split. Qed.

End Plan.

(** The fallback plans of [_parse_response] pass the checks of [plan]. *)
Ltac fallback_has_steps Hs :=
  unfold no_json_plan, parse_error_plan in Hs;
  match type of Hs with
  | plan_steps (single_step_plan ?t ?s ?w) = _ =>
      destruct (plan_steps_single t s w) as (?step & ?H1 & ?H2 & _);
      congruence
  end.

Ltac fallback_passes Hs Hc :=
  unfold no_json_plan, parse_error_plan in Hs;
  match type of Hs with
  | plan_steps (single_step_plan ?t ?s ?w) = _ =>
      let H1 := fresh in let H2 := fresh in
      destruct (plan_steps_single t s w) as (?step & H1 & H2 & _);
      rewrite H1 in Hs; injection Hs as <-; rewrite H2 in Hc; discriminate
  end.

(** C1, as amended.  Whatever the client does, [plan] returns a plan
    dict and raises nothing.  It returns a single-step fallback plan
    whose warning tells the failure when the client raises; when
    [_parse_response] raises; when the response has no opening brace or
    the text handed to [json.loads] is rejected with a
    [JSONDecodeError]; when the parsed dict has no list under "plan";
    and when that list holds a dict without one of the four keys, or
    [None], a bool or a number. *)
Theorem plan_never_raises (self : PlannerNode) (I : interp) (user_input : value)
    (client : list message -> result llm_response) :
  let answer := client (plan_messages self user_input) in
  let failed e := planning_failed_plan user_input e in
  exists p,
    fst (run client (plan self I user_input)) = Ok p
    /\ (exists steps, plan_steps p = Some steps)
    /\ (forall e, answer = Raise e -> p = failed e)
    /\ (forall response, answer = Ok response ->
        let content := response_content response in
        (forall e, _parse_response I content = Raise e -> p = failed e)
        /\ (json_text content = None -> p = no_json_plan content)
        /\ (forall t e, json_text content = Some t -> json.loads I t = Raise e ->
                        exn_cls e = JSONDecodeError -> p = parse_error_plan content)
        /\ (forall v, _parse_response I content = Ok v -> plan_steps v = None ->
                      p = failed (Exn ValueError (py "Plan must contain a list of steps")))
        /\ (forall v steps step,
              _parse_response I content = Ok v -> plan_steps v = Some steps ->
              In step steps -> refused_step step -> exists e, p = failed e))
    /\ (forall e, plan_warnings (failed e)
                  = Some (VList [VStr (py "Planning failed: " ++ exn_str e)])).
Proof.
  cbv zeta. rewrite run_plan. cbn [fst].
  destruct (client (plan_messages self user_input)) as [response|e0] eqn:Ha.
  2:{ eexists. split; [reflexivity|]. split; [eexists; reflexivity|].
      split; [now intros e [= ->]|]. split; [discriminate | reflexivity]. }
  destruct (_parse_response I (response_content response)) as [v|e0] eqn:Hp.
  2:{ rewrite (plan_try_raised _ _ _ Hp).
      eexists. split; [reflexivity|]. split; [eexists; reflexivity|].
      split; [discriminate|]. split; [|reflexivity].
      intros r [= <-]. rewrite Hp.
      split; [now intros e [= ->]|].
      rewrite parse_response_eq in Hp.
      split; [intros Ht; rewrite Ht in Hp; discriminate|].
      split; [|split; discriminate].
      intros t e Ht Hl Hc. rewrite Ht, Hl in Hp. unfold try_except in Hp.
      rewrite Hc in Hp. discriminate. }
  rewrite (plan_try_parsed _ _ _ Hp).
  assert (forall r, Ok response = Ok r ->
            (json_text (response_content r) = None -> v = no_json_plan (response_content r))
            /\ (forall t e, json_text (response_content r) = Some t ->
                            json.loads I t = Raise e -> exn_cls e = JSONDecodeError ->
                            v = parse_error_plan (response_content r))) as Hfb.
  { intros r [= <-]. rewrite parse_response_eq in Hp. split.
    - intros Ht. rewrite Ht in Hp. congruence.
    - intros t e Ht Hl Hc. rewrite Ht, Hl in Hp. unfold try_except in Hp.
      rewrite Hc in Hp. cbn [is_JSONDecodeError] in Hp. congruence. }
  destruct (plan_steps v) as [steps|] eqn:Hs.
  - destruct (check_steps steps) as [[]|e0] eqn:Hc; cbn [bind].
    + exists v. split; [reflexivity|]. split; [eauto|]. split; [discriminate|].
      split; [|reflexivity]. intros r Hr. pose proof (Hfb r Hr) as [Hn Hj].
      injection Hr as <-. rewrite Hp.
      split; [discriminate|]. split; [exact Hn|]. split; [exact Hj|].
      split; [intros v' [= <-]; congruence|].
      intros v' steps' step [= <-] Hs' Hin Href.
      assert (steps' = steps) as -> by congruence.
      destruct (check_steps_refused _ _ Hin Href) as [e He]. congruence.
    + eexists. split; [reflexivity|]. split; [eexists; reflexivity|].
      split; [discriminate|]. split; [|reflexivity].
      intros r Hr. pose proof (Hfb r Hr) as [Hn Hj]. injection Hr as <-. rewrite Hp.
      split; [discriminate|].
      split; [intros Ht; specialize (Hn Ht); subst v; fallback_passes Hs Hc|].
      split; [intros t e Ht Hl Hcl; specialize (Hj t e Ht Hl Hcl); subst v;
              fallback_passes Hs Hc|].
      split; [intros v' [= <-]; congruence | eauto].
  - eexists. split; [reflexivity|]. split; [eexists; reflexivity|].
    split; [discriminate|]. split; [|reflexivity].
    intros r Hr. pose proof (Hfb r Hr) as [Hn Hj]. injection Hr as <-. rewrite Hp.
    split; [discriminate|].
    split; [intros Ht; specialize (Hn Ht); subst v; fallback_has_steps Hs|].
    split; [intros t e Ht Hl Hcl; specialize (Hj t e Ht Hl Hcl); subst v;
            fallback_has_steps Hs|].
    split; [reflexivity|]. intros v' steps step [= <-]. congruence.
Qed.

(** A client that fails gives the fallback plan with its message. *)
Lemma plan_never_raises_witness :
  let user_input := VStr (py "list files") in
  exists p,
    fst (run failing (plan node default_interp user_input)) = Ok p
    /\ p = planning_failed_plan user_input
             (Exn (OtherException (py "ConnectionError")) (py "connection refused"))
    /\ plan_warnings p
       = Some (VList [VStr (py "Planning failed: connection refused")]).
Proof.
  cbv zeta.
  destruct (plan_never_raises node default_interp (VStr (py "list files")) failing)
    as (p & H1 & _ & H3 & _ & H5).
  exists p. split; [exact H1|].
  assert (p = planning_failed_plan (VStr (py "list files"))
                (Exn (OtherException (py "ConnectionError")) (py "connection refused")))
    as Hp by (apply H3; reflexivity).
  split; [exact Hp|]. rewrite Hp. apply H5.
Defined.

(** C1 as stated fails in its second half: a response that is malformed
    JSON (an array that is never closed) does not give the fallback plan;
    [plan] returns the object found inside, here without a step and
    without a warning. *)
Lemma plan_keeps_embedded_json :
  (exists e, json.loads default_interp truncated_array = Raise e
             /\ exn_cls e = JSONDecodeError)
  /\ exists p,
       fst (run (answering truncated_array)
              (plan node default_interp (VStr (py "list files")))) = Ok p
       /\ plan_steps p = Some []
       /\ plan_warnings p = None.
Proof.
  split.
  - eexists. split; [vm_compute; reflexivity | reflexivity].
  - eexists. split; [vm_compute; reflexivity|]. split; reflexivity.
Qed.

(** C2 fails on the code.  The check [key in step] is also true of a
    string that has the four names as substrings (and of a list that has
    them as items): [plan] returns such a plan unchanged, and its step
    has none of the four fields. *)
Theorem plan_accepts_text_step :
  let step := VStr (py "step description task category") in
  fst (run (answering text_step) (plan node default_interp (VStr (py "list files"))))
  = Ok (VDict [(py "plan", VList [step])])
  /\ Forall (fun k => py_in k step = Ok true) required_fields
  /\ Forall (fun k => field step k = None) required_fields
  /\ ~ has_required_fields step.
Proof.
  cbv zeta. split; [vm_compute; reflexivity|].
  split; [repeat constructor|]. split; [repeat constructor|].
  intros H. inversion H as [|k ks Hk _]. now apply Hk.
Qed.

(** C8, as amended.  Every step of a fallback plan has the category
    "other", one of those the prompt lists.  A plan that is not a
    fallback plan is the dict [json.loads] read from the response, and
    passed the check of the four names: its steps that are dicts have a
    "category", which [plan] compares with nothing. *)
Theorem plan_categories (self : PlannerNode) (I : interp) (user_input : value)
    (client : list message -> result llm_response) :
  exists p steps,
    fst (run client (plan self I user_input)) = Ok p
    /\ plan_steps p = Some steps
    /\ (Forall (fun step => field step (py "category") = Some (VStr (py "other"))) steps
        \/ exists response t,
             client (plan_messages self user_input) = Ok response
             /\ json_text (response_content response) = Some t
             /\ json.loads I t = Ok p
             /\ Forall (fun step => forall d, step = VDict d ->
                                    field step (py "category") <> None) steps)
    /\ In (py "other") categories.
Proof.
  rewrite run_plan. cbn [fst].
  assert (In (py "other") categories) as Hin by (cbv; tauto).
  assert (forall t s w, exists p steps,
            Ok (A:=value) (single_step_plan t s w) = Ok p /\ plan_steps p = Some steps
            /\ Forall (fun step => field step (py "category") = Some (VStr (py "other")))
                 steps) as Hsingle.
  { intros t s w. destruct (plan_steps_single t s w) as (step & H1 & _ & H3).
    exists (single_step_plan t s w), [step]. repeat split; [exact H1|].
    constructor; [exact H3 | constructor]. }
  destruct (plan_try I (client (plan_messages self user_input))) as [p|e] eqn:Ht.
  2:{ destruct (Hsingle user_input (py "Execute user request (fallback plan)")
                  (py "Planning failed: " ++ exn_str e)) as (p & steps & H1 & H2 & H3).
      exists p, steps. auto. }
  destruct (plan_try_ok _ _ _ Ht) as (response & steps & Ha & Hp & Hs & Hc).
  rewrite parse_response_eq in Hp.
  destruct (json_text (response_content response)) as [t|] eqn:Hj.
  - destruct (json.loads I t) as [v|e] eqn:Hl.
    + apply Ok_inj in Hp; subst v. exists p, steps. repeat split; auto.
      right. exists response, t. repeat split; auto.
      apply List.Forall_forall. intros step Hstep d ->.
      pose proof (check_steps_dict _ _ _ Hc Hstep) as Hf.
      unfold has_required_fields in Hf. rewrite List.Forall_forall in Hf.
      apply Hf. cbv; tauto.
    + unfold try_except in Hp. destruct (is_JSONDecodeError _); [|discriminate].
      apply Ok_inj in Hp; subst p.
      destruct (Hsingle (VStr (Py.strip (response_content response)))
                  (py "Execute user request") (py "Could not parse LLM response"))
        as (p & steps' & H1 & H2 & H3).
      exists p, steps'. auto.
  - apply Ok_inj in Hp; subst p.
    destruct (Hsingle (VStr (Py.strip (response_content response)))
                (py "Execute user request") (py "Could not parse detailed plan"))
      as (p & steps' & H1 & H2 & H3).
    exists p, steps'. auto.
Qed.

(** C8 as stated fails: a category that the prompt does not list comes
    back as the client wrote it. *)
Lemma plan_keeps_odd_category :
  exists p step,
    fst (run (answering odd_category)
           (plan node default_interp (VStr (py "restart the host")))) = Ok p
    /\ plan_steps p = Some [step]
    /\ field step (py "category") = Some (VStr (py "reboot"))
    /\ ~ In (py "reboot") categories.
Proof.
  do 2 eexists. split; [vm_compute; reflexivity|].
  split; [reflexivity|]. split; [reflexivity|].
  cbv. intuition discriminate.
Qed.

(** ** __call__ *)

(** C3.  When the state has no "user_input", or an empty one, [__call__]
    returns at once, without a call of the client (and so without
    [plan]): the state with, under "plan", a plan whose list of steps is
    empty; the other entries are those of the state. *)
Theorem call_without_input (self : PlannerNode) (I : interp)
    (state : gmap str value) :
  state !! py "user_input" = None \/ state !! py "user_input" = Some (VStr []) ->
  exists state' p,
    __call__ self I state = Ret (Ok state')
    /\ (forall client, run client (__call__ self I state) = (Ok state', []))
    /\ state' !! py "plan" = Some p
    /\ plan_steps p = Some []
    /\ (forall k, k <> py "plan" -> state' !! k = state !! k).
Proof.
  intros H.
  assert (__call__ self I state = Ret (Ok (<[py "plan" := no_input_plan]> state))) as Hc.
  { unfold __call__. destruct H as [-> | ->]; reflexivity. }
  exists (<[py "plan" := no_input_plan]> state), no_input_plan.
  split; [exact Hc|]. split; [intros client; now rewrite Hc|].
  split; [apply lookup_insert_eq|]. split; [reflexivity|].
  intros k Hk. now apply lookup_insert_ne.
Qed.

(** A state without "user_input". *)
Lemma call_without_input_witness :
  let state : gmap str value := {[ py "session" := VInt 7 ]} in
  exists state' p,
    __call__ node default_interp state = Ret (Ok state')
    /\ (forall client, run client (__call__ node default_interp state) = (Ok state', []))
    /\ state' !! py "plan" = Some p
    /\ plan_steps p = Some []
    /\ (forall k, k <> py "plan" -> state' !! k = state !! k).
Proof.
  cbv zeta. apply call_without_input. left. apply lookup_singleton_ne. discriminate.
Defined.

(** C7.  When "user_input" holds a non-empty string (any value that is
    true), [__call__] calls [plan] on it, once, and returns the state with
    the plan under "plan", 0 under "current_step" and an empty list under
    "completed_steps" and under "failed_steps"; every other entry of the
    state is in the result with its value. *)
Theorem call_merges_plan (self : PlannerNode) (I : interp)
    (state : gmap str value) (user_input : value)
    (client : list message -> result llm_response) :
  state !! py "user_input" = Some user_input ->
  truthy user_input = true ->
  exists state' p,
    run client (__call__ self I state) = (Ok state', [plan_messages self user_input])
    /\ fst (run client (plan self I user_input)) = Ok p
    /\ state' !! py "plan" = Some p
    /\ state' !! py "current_step" = Some (VInt 0)
    /\ state' !! py "completed_steps" = Some (VList [])
    /\ state' !! py "failed_steps" = Some (VList [])
    /\ (forall k, k <> py "plan" -> k <> py "current_step" ->
                  k <> py "completed_steps" -> k <> py "failed_steps" ->
                  state' !! k = state !! k).
Proof.
  intros Hu Ht.
  pose proof (run_plan self I user_input client) as Hr.
  set (p := match plan_try I (client (plan_messages self user_input)) with
            | Ok p => p
            | Raise e => planning_failed_plan user_input e
            end).
  assert (run client (plan self I user_input) = (Ok p, [plan_messages self user_input]))
    as Hp.
  { rewrite Hr. unfold p. now destruct (plan_try I _). }
  clear Hr.
  exists (<[py "failed_steps" := VList []]>
            (<[py "completed_steps" := VList []]>
               (<[py "current_step" := VInt 0]> (<[py "plan" := p]> state)))), p.
  split.
  - unfold __call__. rewrite Hu. unfold default, id. cbv zeta. rewrite Ht. cbn [negb].
    unfold plan in *. cbn [pbind run] in *.
    apply pair_equal_spec in Hp as [Hp _]. apply pair_equal_spec.
    split; [|reflexivity]. rewrite Hp. reflexivity.
  - split; [now rewrite Hp|].
    assert (py "failed_steps" <> py "completed_steps") by discriminate.
    assert (py "failed_steps" <> py "current_step") by discriminate.
    assert (py "failed_steps" <> py "plan") by discriminate.
    assert (py "completed_steps" <> py "current_step") by discriminate.
    assert (py "completed_steps" <> py "plan") by discriminate.
    assert (py "current_step" <> py "plan") by discriminate.
    split; [now rewrite !lookup_insert_ne, lookup_insert_eq by assumption|].
    split; [now rewrite !lookup_insert_ne, lookup_insert_eq by assumption|].
    split; [now rewrite !lookup_insert_ne, lookup_insert_eq by assumption|].
    split; [now rewrite lookup_insert_eq|].
    intros k Hk1 Hk2 Hk3 Hk4. now rewrite !lookup_insert_ne by congruence.
Qed.

(** A state with an instruction and one more entry. *)
Lemma call_merges_plan_witness :
  let user_input := VStr (py "list files") in
  let state : gmap str value :=
    {[ py "user_input" := user_input; py "session" := VInt 7 ]} in
  exists state' p,
    run failing (__call__ node default_interp state)
    = (Ok state', [plan_messages node user_input])
    /\ fst (run failing (plan node default_interp user_input)) = Ok p
    /\ state' !! py "plan" = Some p
    /\ state' !! py "current_step" = Some (VInt 0)
    /\ state' !! py "completed_steps" = Some (VList [])
    /\ state' !! py "failed_steps" = Some (VList [])
    /\ (forall k, k <> py "plan" -> k <> py "current_step" ->
                  k <> py "completed_steps" -> k <> py "failed_steps" ->
                  state' !! k = state !! k).
Proof.
  cbv zeta. apply call_merges_plan; [apply lookup_insert_eq | reflexivity].
Defined.

(** * Further properties *)

(** ** Dicts and string equality *)

Lemma py_eqb_eq (a b : str) : Py.eqb a b = true <-> a = b.
Proof.
  revert b; induction a as [|x a IH]; intros [|y b]; simpl; try (split; congruence).
  rewrite andb_true_iff, N.eqb_eq, IH. split; [intros [-> ->]; reflexivity | intros [= -> ->]; auto].
Qed.

Lemma py_eqb_refl (a : str) : Py.eqb a a = true.
Proof. now apply py_eqb_eq. Qed.

Lemma py_eqb_neq (a b : str) : Py.eqb a b = false <-> a <> b.
Proof.
  split.
  - intros H E. apply py_eqb_eq in E. congruence.
  - intros H. destruct (Py.eqb a b) eqn:E; [apply py_eqb_eq in E; contradiction | reflexivity].
Qed.

Lemma py_eq_str_true (v : value) (s : str) : py_eq_str v s = true <-> v = VStr s.
Proof.
  destruct v; simpl; try (split; [discriminate | congruence]).
  rewrite py_eqb_eq. split; congruence.
Qed.

Lemma getitem_dict (d : dict) (k : str) :
  py_getitem (VDict d) k =
  match Dict.get d k with Some v => Ok v | None => Raise (key_error k) end.
Proof. reflexivity. Qed.

(** ** _create_llm *)

Section CreateLlm.

Variable str_of : value -> str.

Lemma create_llm_openai (cfg : dict) :
  Dict.get cfg (py "type") = Some (VStr (py "openai")) ->
  _create_llm str_of cfg =
  (api_key <- py_getitem (VDict cfg) (py "api_key") ;;
   model <- py_getitem (VDict cfg) (py "model") ;;
   timeout <- py_getitem (VDict cfg) (py "timeout") ;;
   Ok (ChatOpenAI api_key model temperature_0_1 timeout)).
Proof. intros H. unfold _create_llm. rewrite getitem_dict, H. reflexivity. Qed.

Lemma create_llm_ollama (cfg : dict) :
  Dict.get cfg (py "type") = Some (VStr (py "ollama")) ->
  _create_llm str_of cfg =
  (model <- py_getitem (VDict cfg) (py "model") ;;
   base_url <- py_getitem (VDict cfg) (py "base_url") ;;
   Ok (Ollama model base_url temperature_0_1)).
Proof. intros H. unfold _create_llm. rewrite !getitem_dict, H. reflexivity. Qed.

Lemma create_llm_other (cfg : dict) (t : value) :
  Dict.get cfg (py "type") = Some t ->
  t <> VStr (py "openai") -> t <> VStr (py "ollama") ->
  _create_llm str_of cfg =
  Raise (Exn ValueError (py "Unsupported LLM type: " ++ format_value str_of t)).
Proof.
  intros H H1 H2. unfold _create_llm. rewrite !getitem_dict, H. cbn [bind].
  destruct (py_eq_str t (py "openai")) eqn:E1; [apply py_eq_str_true in E1; contradiction|].
  destruct (py_eq_str t (py "ollama")) eqn:E2; [apply py_eq_str_true in E2; contradiction|].
  reflexivity.
Qed.

End CreateLlm.

(** X1.  [_create_llm] reaches a constructor call exactly for the two
    backends it knows, spelled in lower case, when the configuration has
    every key the backend's constructor is given: "api_key", "model" and
    "timeout" for "openai", "model" and "base_url" for "ollama".  The
    call is made with those entries and the temperature 0.1, and with
    nothing else. *)
Theorem create_llm_returns (str_of : value -> str) (cfg : dict) (l : llm) :
  _create_llm str_of cfg = Ok l <->
  (Dict.get cfg (py "type") = Some (VStr (py "openai"))
   /\ exists api_key model timeout,
        Dict.get cfg (py "api_key") = Some api_key
        /\ Dict.get cfg (py "model") = Some model
        /\ Dict.get cfg (py "timeout") = Some timeout
        /\ l = ChatOpenAI api_key model (FDec false 1 (-1)) timeout)
  \/ (Dict.get cfg (py "type") = Some (VStr (py "ollama"))
      /\ exists model base_url,
           Dict.get cfg (py "model") = Some model
           /\ Dict.get cfg (py "base_url") = Some base_url
           /\ l = Ollama model base_url (FDec false 1 (-1))).
Proof.
  split.
  - intros H. destruct (Dict.get cfg (py "type")) as [t|] eqn:Ht.
    2:{ unfold _create_llm in H. rewrite getitem_dict, Ht in H. discriminate. }
    destruct (py_eq_str t (py "openai")) eqn:E1.
    { apply py_eq_str_true in E1; subst t. left. split; [reflexivity|].
      rewrite (create_llm_openai _ _ Ht), !getitem_dict in H.
      destruct (Dict.get cfg (py "api_key")) as [k|]; [|discriminate].
      destruct (Dict.get cfg (py "model")) as [m|]; [|discriminate].
      destruct (Dict.get cfg (py "timeout")) as [t|]; [|discriminate].
      apply Ok_inj in H. eauto 10. }
    destruct (py_eq_str t (py "ollama")) eqn:E2.
    { apply py_eq_str_true in E2; subst t. right. split; [reflexivity|].
      rewrite (create_llm_ollama _ _ Ht), !getitem_dict in H.
      destruct (Dict.get cfg (py "model")) as [m|]; [|discriminate].
      destruct (Dict.get cfg (py "base_url")) as [b|]; [|discriminate].
      apply Ok_inj in H. eauto 10. }
    rewrite (create_llm_other _ _ t Ht) in H; [discriminate| |].
    + intros ->. cbn [py_eq_str] in E1. rewrite py_eqb_refl in E1. discriminate.
    + intros ->. cbn [py_eq_str] in E2. rewrite py_eqb_refl in E2. discriminate.
  - intros [(Ht & k & m & t & Hk & Hm & Htm & ->) | (Ht & m & b & Hm & Hb & ->)].
    + rewrite (create_llm_openai _ _ Ht), !getitem_dict, Hk, Hm, Htm. reflexivity.
    + rewrite (create_llm_ollama _ _ Ht), !getitem_dict, Hm, Hb. reflexivity.
Qed.

(** X2.  Any other value under "type" makes [_create_llm] raise a
    [ValueError] that names it; the comparison is exact, so "OpenAI" is
    refused. *)
Theorem create_llm_unsupported (str_of : value -> str) (cfg : dict) (backend : str) :
  Dict.get cfg (py "type") = Some (VStr backend) ->
  backend <> py "openai" -> backend <> py "ollama" ->
  _create_llm str_of cfg
  = Raise (Exn ValueError (py "Unsupported LLM type: " ++ backend)).
Proof.
  intros H H1 H2. rewrite (create_llm_other _ _ _ H); [reflexivity | congruence | congruence].
Qed.

(** "OpenAI" is no backend. *)
Lemma create_llm_unsupported_witness :
  _create_llm (fun _ => []) capitalised_config
  = Raise (Exn ValueError (py "Unsupported LLM type: OpenAI")).
Proof.
  apply (create_llm_unsupported (fun _ => []) capitalised_config (py "OpenAI"));
    [reflexivity | discriminate | discriminate].
Defined.

(** X3.  A configuration without "type" makes [_create_llm] raise
    [KeyError('type')]; for a known backend, the first key of the
    backend that the configuration lacks is the one the [KeyError]
    names. *)
Theorem create_llm_missing_key (str_of : value -> str) (cfg : dict) :
  (Dict.get cfg (py "type") = None ->
   _create_llm str_of cfg = Raise (key_error (py "type")))
  /\ (forall backend k,
        Dict.get cfg (py "type") = Some (VStr backend) ->
        first_missing cfg (backend_keys backend) = Some k ->
        _create_llm str_of cfg = Raise (key_error k)).
Proof.
  split.
  - intros H. unfold _create_llm. rewrite getitem_dict, H. reflexivity.
  - intros backend k Ht Hm. unfold backend_keys in Hm.
    destruct (Py.eqb backend (py "openai")) eqn:E1.
    { apply py_eqb_eq in E1; subst backend.
      rewrite (create_llm_openai _ _ Ht), !getitem_dict. cbn [first_missing] in Hm.
      destruct (Dict.get cfg (py "api_key")); [|now injection Hm as <-].
      destruct (Dict.get cfg (py "model")); [|now injection Hm as <-].
      destruct (Dict.get cfg (py "timeout")); [discriminate | now injection Hm as <-]. }
    destruct (Py.eqb backend (py "ollama")) eqn:E2; [|discriminate].
    apply py_eqb_eq in E2; subst backend.
    rewrite (create_llm_ollama _ _ Ht), !getitem_dict. cbn [first_missing] in Hm.
    destruct (Dict.get cfg (py "model")); [|now injection Hm as <-].
    destruct (Dict.get cfg (py "base_url")); [discriminate | now injection Hm as <-].
Qed.

(** An "openai" configuration without "timeout". *)
Lemma create_llm_missing_key_witness :
  _create_llm (fun _ => []) openai_config_without_timeout
  = Raise (Exn KeyError (py "'timeout'")).
Proof.
  apply (proj2 (create_llm_missing_key (fun _ => []) openai_config_without_timeout)
           (py "openai") (py "timeout")); reflexivity.
Defined.

(** ** Strings put together *)

Lemma lstrip_spaces (s : str) :
  Forall (fun c => Py.isspace c = true) s -> Py.lstrip s = [].
Proof. induction 1 as [|c s Hc _ IH]; simpl; [reflexivity | now rewrite Hc]. Qed.

Lemma strip_spaces (s : str) :
  Forall (fun c => Py.isspace c = true) s -> Py.strip s = [].
Proof. intros H. unfold Py.strip. now rewrite (lstrip_spaces _ H). Qed.

(** With a character that is no space in [p], stripping [p ++ s] on the
    left leaves a character of [p] in front. *)
Lemma lstrip_app_head (p s : str) :
  (exists c, In c p /\ Py.isspace c = false) ->
  exists c t, In c p /\ Py.lstrip (p ++ s) = c :: t.
Proof.
  induction p as [|x p IH]; intros (c & Hin & Hc); [contradiction|].
  simpl. destruct (Py.isspace x) eqn:Hx.
  - destruct Hin as [-> | Hin]; [congruence|].
    destruct IH as (c' & t & Hin' & Ht); [eauto|]. exists c', t. auto.
  - exists x, (p ++ s). auto.
Qed.

Lemma find_from_app (p s : str) (c : N) (i : Z) :
  ~ In c p ->
  Py.find_from (p ++ s) [c] i = Py.find_from s [c] (i + Z.of_nat (length p)).
Proof.
  revert i; induction p as [|x p IH]; intros i Hn.
  - simpl. f_equal. lia.
  - cbn [app]. rewrite PyFacts.find_from_cons.
    destruct (N.eqb_spec c x) as [->|Hne]; [exfalso; apply Hn; now left|].
    rewrite IH by (intros H; apply Hn; now right). f_equal. cbn [length]. lia.
Qed.

Lemma rfind_from_none (s : str) (c : N) (i : Z) :
  ~ In c s -> Py.rfind_from s [c] i = -1.
Proof.
  revert i; induction s as [|x s IH]; intros i Hn; [reflexivity|].
  rewrite PyFacts.rfind_from_cons, IH by (intros H; apply Hn; now right). simpl.
  destruct (N.eqb_spec c x) as [->|]; [exfalso; apply Hn; now left | reflexivity].
Qed.

Lemma rfind_from_app_absent (s q : str) (c : N) (i : Z) :
  ~ In c q -> Py.rfind_from (s ++ q) [c] i = Py.rfind_from s [c] i.
Proof.
  intros Hn. revert i; induction s as [|x s IH]; intros i.
  - simpl app. now rewrite rfind_from_none.
  - cbn [app]. rewrite !PyFacts.rfind_from_cons, IH. reflexivity.
Qed.

Lemma rfind_from_snoc (s : str) (c : N) (i : Z) :
  0 <= i -> Py.rfind_from (s ++ [c]) [c] i = i + Z.of_nat (length s).
Proof.
  revert i; induction s as [|x s IH]; intros i Hi.
  - cbn [app]. rewrite PyFacts.rfind_from_cons. simpl. rewrite N.eqb_refl. lia.
  - cbn [app]. rewrite PyFacts.rfind_from_cons, IH by lia.
    destruct (Z.eqb_spec (i + 1 + Z.of_nat (length s)) (-1)); [lia|]. cbn [length]. lia.
Qed.

Lemma rfind_from_app_found (p s : str) (c : N) (i : Z) :
  0 <= i -> Py.rfind_from s [c] (i + Z.of_nat (length p)) <> -1 ->
  Py.rfind_from (p ++ s) [c] i = Py.rfind_from s [c] (i + Z.of_nat (length p)).
Proof.
  revert i; induction p as [|x p IH]; intros i Hi Hf.
  - cbn [app length] in *. f_equal. lia.
  - cbn [app length] in *. rewrite PyFacts.rfind_from_cons.
    replace (i + Z.of_nat (S (length p))) with (i + 1 + Z.of_nat (length p)) in * by lia.
    rewrite IH by (try lia; assumption).
    destruct (Z.eqb_spec (Py.rfind_from s [c] (i + 1 + Z.of_nat (length p))) (-1));
      [contradiction | reflexivity].
Qed.

(** The slice that a part of a string occupies is that part. *)
Lemma slice_middle (p b q : str) :
  Py.slice (p ++ b ++ q) (Z.of_nat (length p)) (Z.of_nat (length p) + Z.of_nat (length b)) = b.
Proof.
  unfold Py.slice, Py.slice_bound. rewrite !length_app.
  destruct (Z.ltb_spec (Z.of_nat (length p)) 0); [lia|].
  destruct (Z.ltb_spec (Z.of_nat (length p) + Z.of_nat (length b)) 0); [lia|].
  rewrite !Z.min_l by lia. rewrite Nat2Z.id.
  replace (Z.to_nat _) with (length b) by lia.
  rewrite skipn_app, skipn_all, Nat.sub_diag, skipn_O. cbn [app].
  rewrite firstn_app, firstn_all, Nat.sub_diag, firstn_O. apply app_nil_r.
Qed.

(** A slice whose end is not after its start is empty. *)
Lemma slice_empty (s : str) (a b : Z) : 0 <= a -> 0 <= b -> b <= a -> Py.slice s a b = [].
Proof.
  intros Ha Hb Hab. unfold Py.slice, Py.slice_bound.
  destruct (Z.ltb_spec a 0); [lia|]. destruct (Z.ltb_spec b 0); [lia|].
  set (len := Z.of_nat (length s)).
  replace (Z.to_nat (Z.min b len - Z.min a len)) with 0%nat by lia. reflexivity.
Qed.

(** ** _parse_response, further *)

Lemma blank_no_json (I : interp) (response : str) :
  Forall (fun c => Py.isspace c = true) response ->
  _parse_response I response = Ok (no_json_plan response)
  /\ Py.strip response = [].
Proof.
  intros H. pose proof (strip_spaces _ H) as Hs.
  assert (~ In 123%N response) as Hn.
  { intros Hin. rewrite List.Forall_forall in H. now specialize (H _ Hin). }
  split; [|exact Hs].
  rewrite parse_response_eq. unfold json_text, Py.contains, Py.find. rewrite Hs.
  change (py "{") with [123%N].
  rewrite (proj2 (PyFacts.find_from_absent response 123 0 (Z.le_refl 0)) Hn).
  reflexivity.
Qed.

(** X4.  A response of nothing but whitespace, the empty response
    included, is answered with the plan for a response without JSON; its
    single task is the empty string. *)
Theorem parse_response_blank (I : interp) (response : str) :
  Forall (fun c => Py.isspace c = true) response ->
  _parse_response I response = Ok (no_json_plan response)
  /\ first_task (no_json_plan response) = Some (VStr []).
Proof.
  intros H. destruct (blank_no_json I response H) as [Hp Hs].
  split; [exact Hp|]. unfold no_json_plan. rewrite Hs. reflexivity.
Qed.

(** Three spaces. *)
Lemma parse_response_blank_witness :
  _parse_response default_interp (py "   ") = Ok (no_json_plan (py "   "))
  /\ first_task (no_json_plan (py "   ")) = Some (VStr []).
Proof.
  apply (parse_response_blank default_interp (py "   ")). repeat constructor.
Defined.

(** X5.  Text around a JSON object is ignored: when text without an
    opening brace, and not only of spaces, comes before an object, and
    text without a closing brace after it, [json.loads] is given the
    object alone, from its opening to its closing brace, and what it
    returns is returned. *)
Theorem parse_response_extracts (I : interp) (before inside after : str) :
  let object := 123%N :: inside ++ [125%N] in
  let response := before ++ object ++ after in
  ~ In 123%N before ->
  (exists c, In c before /\ Py.isspace c = false) ->
  ~ In 125%N after ->
  json_text response = Some object
  /\ _parse_response I response
     = try_except (json.loads I object) is_JSONDecodeError
         (fun _ => Ok (parse_error_plan response))
  /\ (forall v, json.loads I object = Ok v -> _parse_response I response = Ok v).
Proof.
  intros object response Hb Hc Ha.
  assert (Py.find response [123%N] = Z.of_nat (length before)) as Hf.
  { unfold Py.find, response. rewrite find_from_app by assumption.
    unfold object. cbn [app]. rewrite PyFacts.find_from_cons, N.eqb_refl. lia. }
  assert (Py.rfind response [125%N] + 1
          = Z.of_nat (length before) + Z.of_nat (length object)) as Hr.
  { unfold Py.rfind, response. rewrite app_assoc, rfind_from_app_absent by assumption.
    assert (Py.rfind_from object [125%N] (0 + Z.of_nat (length before))
            = 0 + Z.of_nat (length before) + Z.of_nat (length (123%N :: inside))) as Ho.
    { unfold object. change (123%N :: inside ++ [125%N]) with ((123%N :: inside) ++ [125%N]).
      apply rfind_from_snoc. lia. }
    rewrite rfind_from_app_found by (try lia; rewrite Ho; lia).
    rewrite Ho. unfold object. cbn [length]. rewrite length_app. cbn [length]. lia. }
  assert (Py.startswith (Py.strip response) [123%N] = false) as Hs.
  { destruct (Py.startswith (Py.strip response) [123%N]) eqn:E; [|reflexivity].
    apply PyFacts.startswith_rstrip in E.
    destruct (lstrip_app_head before (object ++ after) Hc) as (c & t & Hin & Hl).
    fold response in Hl. rewrite Hl, PyFacts.startswith_char in E.
    apply N.eqb_eq in E. subst c. contradiction. }
  assert (json_text response = Some object) as Hj.
  { unfold json_text, Py.contains. change (py "{") with [123%N]. change (py "}") with [125%N].
    rewrite Hs, Hf, Hr.
    destruct (Z.eqb_spec (Z.of_nat (length before)) (-1)); [lia|]. cbn [negb].
    unfold response. now rewrite slice_middle. }
  split; [exact Hj|].
  assert (_parse_response I response
          = try_except (json.loads I object) is_JSONDecodeError
              (fun _ => Ok (parse_error_plan response))) as Hp
    by (now rewrite parse_response_eq, Hj).
  split; [exact Hp|]. intros v Hv. now rewrite Hp, Hv.
Qed.

(** Prose before and after a plan. *)
Lemma parse_response_extracts_witness :
  _parse_response default_interp
    (py "Here is the plan: " ++ (123%N :: js "'plan': []" ++ [125%N]) ++ py " Done.")
  = Ok (VDict [(py "plan", VList [])]).
Proof.
  apply (parse_response_extracts default_interp (py "Here is the plan: ")
           (js "'plan': []") (py " Done.")).
  - vm_compute. intuition discriminate.
  - exists 72%N. split; [now left | reflexivity].
  - vm_compute. intuition discriminate.
  - vm_compute. reflexivity.
Defined.

(** X6.  [str.strip] removes more than JSON allows before a value.  When
    the stripped response starts with an opening brace and the first
    character that is no JSON whitespace is a space for Python (a form
    feed, a vertical tab, a no-break space, ...), the direct parse is
    tried, [json.loads] rejects the response, and the fallback plan is
    returned, whatever follows. *)
Theorem parse_response_python_space (I : interp) (w : str) (c : N) (t : str) :
  Forall (fun x => json.is_ws x = true) w ->
  Py.isspace c = true -> json.is_ws c = false ->
  Py.startswith (Py.strip (w ++ c :: t)) (py "{") = true ->
  (exists e, json.loads I (w ++ c :: t) = Raise e /\ exn_cls e = JSONDecodeError)
  /\ _parse_response I (w ++ c :: t) = Ok (parse_error_plan (w ++ c :: t)).
Proof.
  intros Hw Hc Hj.
  assert (forall pos, json.tokens_from 0 pos (w ++ c :: t)
                      = [((pos + N.of_nat (length w))%N, json.TBad)]) as Ht.
  { induction Hw as [|x w Hx _ IH]; intros pos.
    - cbn [app json.tokens_from]. rewrite Hj, (JsonFacts.scan_token_space _ _ _ Hc Hj).
      cbn [json.is_stop length]. do 2 f_equal. lia.
    - cbn [app json.tokens_from]. rewrite Hx, IH. do 2 f_equal. cbn [length]. lia. }
  intros Hs.
  assert (Py.startswith (w ++ c :: t) [65279%N] = false) as Hb.
  { destruct w as [|x w]; cbn [app]; rewrite PyFacts.startswith_char.
    - destruct (N.eqb_spec 65279 c) as [<-|]; [discriminate | reflexivity].
    - inversion Hw as [|? ? Hx _]; subst.
      destruct (N.eqb_spec 65279 x) as [<-|]; [discriminate | reflexivity]. }
  assert (exists e, json.loads I (w ++ c :: t) = Raise e /\ exn_cls e = JSONDecodeError)
    as (e & He & Hcls).
  { unfold json.loads, json.tokens. rewrite Hb, Ht. cbn [json.run json.step].
    unfold json.value_start, json.fail. eexists. split; [reflexivity|].
    apply JsonFacts.errmsg_cls. }
  split; [eauto|].
  rewrite parse_response_eq. unfold json_text. rewrite Hs, He.
  unfold try_except. now rewrite Hcls.
Qed.

(** A no-break space before a well-formed object. *)
Lemma parse_response_python_space_witness :
  let object := js "{'plan': []}" in
  json.loads default_interp object = Ok (VDict [(py "plan", VList [])])
  /\ _parse_response default_interp (160%N :: object)
     = Ok (parse_error_plan (160%N :: object)).
Proof.
  cbv zeta. split; [vm_compute; reflexivity|].
  apply (parse_response_python_space default_interp [] 160 (js "{'plan': []}"));
    [constructor | reflexivity | reflexivity | vm_compute; reflexivity].
Defined.

(** X7.  When the last closing brace of the response comes before its
    first opening brace (or there is none), the extracted text is empty
    and the fallback plan of the handler is returned. *)
Theorem parse_response_close_before_open (I : interp) (response : str) :
  Py.startswith (Py.strip response) (py "{") = false ->
  Py.contains response (py "{") = true ->
  Py.rfind response (py "}") < Py.find response (py "{") ->
  json_text response = Some []
  /\ _parse_response I response = Ok (parse_error_plan response).
Proof.
  intros Hs Ho Hlt. change (py "{") with [123%N] in *. change (py "}") with [125%N] in *.
  pose proof (contains_find _ _ Ho) as Hf.
  pose proof (PyFacts.rfind_ge response [125%N]) as Hr.
  assert (json_text response = Some []) as Hj.
  { unfold json_text. change (py "{") with [123%N]. change (py "}") with [125%N].
    rewrite Hs, Ho. f_equal. apply slice_empty; lia. }
  split; [exact Hj|]. rewrite parse_response_eq, Hj, JsonFacts.loads_nil. reflexivity.
Qed.

(** A closing brace, then an opening one. *)
Lemma parse_response_close_before_open_witness :
  _parse_response default_interp (py "done } next {")
  = Ok (parse_error_plan (py "done } next {")).
Proof.
  apply (parse_response_close_before_open default_interp (py "done } next {"));
    reflexivity.
Defined.

(** ** The check of the steps *)

(** X8.  What the check [all(key in step for key in [...])] accepts: a
    dict with the four keys, but also a string in which the four names
    occur and a list that holds the four names; [None], a bool and a
    number never pass. *)
Theorem step_accepted (step : value) :
  py_all (fun key => py_in key step) required_fields = Ok true <->
  match step with
  | VDict d => Forall (fun k => Dict.get d k <> None) required_fields
  | VStr s => Forall (fun k => Py.contains s k = true) required_fields
  | VList l => Forall (fun k => In (VStr k) l) required_fields
  | VNone | VBool _ | VInt _ | VFloat _ => False
  end.
Proof.
  assert (forall (f : str -> bool),
            py_all (fun key => Ok (f key)) required_fields = Ok true
            <-> Forall (fun k => f k = true) required_fields) as Hall.
  { intros f. generalize required_fields. induction l as [|k ks IH]; simpl.
    - split; [constructor | reflexivity].
    - destruct (f k) eqn:Hk.
      + rewrite IH. split; [now constructor | now inversion 1].
      + split; [discriminate | inversion 1; congruence]. }
  destruct step as [| | | | s | l | d]; try (split; [discriminate | contradiction]).
  - apply Hall.
  - cbn [py_in]. rewrite Hall. apply Forall_iff. intros k.
    rewrite existsb_exists. split.
    + intros (x & Hin & Hx). destruct x; try discriminate.
      apply py_eqb_eq in Hx. now subst.
    + intros Hin. exists (VStr k). split; [exact Hin | apply py_eqb_refl].
  - cbn [py_in]. rewrite Hall. apply Forall_iff. intros k.
    destruct (Dict.get d k); split; congruence.
Qed.

(** X9.  The steps are checked in order and the first one that fails
    decides the exception, whatever comes after it: a [TypeError] that
    names the type when that step is [None], a bool or a number, the
    [ValueError] of the missing fields otherwise. *)
Theorem check_steps_first_failure (passing rest : list value) (step : value) :
  check_steps passing = Ok tt ->
  py_all (fun key => py_in key step) required_fields <> Ok true ->
  check_steps (passing ++ step :: rest) =
  Raise (if is_scalar step
         then Exn TypeError
                (py "argument of type '" ++ type_name step ++ py "' is not iterable")
         else Exn ValueError
                (py "Each step must have step, description, task, and category fields")).
Proof.
  intros Hp Hs. induction passing as [|x passing IH].
  - cbn [app check_steps]. unfold bind at 1.
    assert (forall (f : str -> bool) keys,
              exists b, py_all (fun key => Ok (f key)) keys = Ok b) as Hb.
    { intros f keys. induction keys as [|k ks [b IHk]]; cbn [py_all bind]; [eauto|].
      destruct (f k); eauto. }
    destruct step as [| | | | s | l | d]; try reflexivity; cbn [py_in is_scalar] in *.
    + destruct (Hb (fun key => Py.contains s key) required_fields) as [[|] E];
        rewrite E in *; [contradiction | reflexivity].
    + destruct (Hb (fun key => existsb (fun x => match x with
                                                  | VStr s => Py.eqb s key
                                                  | _ => false
                                                  end) l) required_fields) as [[|] E];
        rewrite E in *; [contradiction | reflexivity].
    + destruct (Hb (fun key => match Dict.get d key with Some _ => true | None => false end)
                  required_fields) as [[|] E];
        rewrite E in *; [contradiction | reflexivity].
  - cbn [app check_steps] in *. unfold bind at 1. unfold bind at 1 in Hp.
    destruct (py_all (fun key => py_in key x) required_fields) as [[|]|e];
      cbn [negb] in *; try discriminate. auto.
Qed.

(** A dict without "task" after a good step, before a number. *)
Lemma check_steps_first_failure_witness :
  let good := VDict [(py "step", VInt 1); (py "description", VStr (py "d"));
                     (py "task", VStr (py "t")); (py "category", VStr (py "check"))] in
  let bad := VDict [(py "step", VInt 2)] in
  check_steps ([good] ++ bad :: [VInt 3]) =
  Raise (Exn ValueError
           (py "Each step must have step, description, task, and category fields")).
Proof.
  cbv zeta. apply (check_steps_first_failure [_] [VInt 3] (VDict [(py "step", VInt 2)]));
    [reflexivity | discriminate].
Defined.

(** ** plan, further *)

Lemma py_all_of_forall {A} (f : A -> result bool) (xs : list A) :
  Forall (fun x => f x = Ok true) xs -> py_all f xs = Ok true.
Proof.
  induction 1 as [|x xs Hx _ IH]; [reflexivity|]. cbn [py_all]. now rewrite Hx.
Qed.

Lemma check_steps_accepts (steps : list value) :
  Forall (fun step => py_all (fun key => py_in key step) required_fields = Ok true) steps ->
  check_steps steps = Ok tt.
Proof.
  induction 1 as [|step steps Hs _ IH]; [reflexivity|].
  cbn [check_steps]. unfold bind at 1. now rewrite Hs.
Qed.

(** X10.  [plan] returns the dict that [_parse_response] produced exactly
    when that dict has a list under "plan" whose every step passes the
    check [key in step] for the four names; an empty list passes.  No
    other key of the dict is looked at, and nothing is added to it. *)
Theorem plan_returns_parsed (self : PlannerNode) (I : interp) (user_input : value)
    (client : list message -> result llm_response) (response : llm_response)
    (v : value) :
  client (plan_messages self user_input) = Ok response ->
  _parse_response I (response_content response) = Ok v ->
  (fst (run client (plan self I user_input)) = Ok v
   <-> exists steps,
         plan_steps v = Some steps
         /\ Forall (fun step =>
                      py_all (fun key => py_in key step) required_fields = Ok true)
              steps).
Proof.
  intros Ha Hp. rewrite run_plan, Ha, (plan_try_parsed _ _ _ Hp). cbn [fst]. split.
  - intros H. destruct (plan_steps v) as [steps|] eqn:Hs.
    + exists steps. split; [reflexivity|].
      destruct (check_steps steps) as [[]|e] eqn:Hc; cbn [bind] in H.
      * apply check_steps_ok in Hc. eapply List.Forall_impl; [|exact Hc].
        intros step. apply py_all_of_forall.
      * apply Ok_inj in H. subst v. exfalso.
        unfold planning_failed_plan in Hs.
        match type of Hs with
        | plan_steps (single_step_plan ?t ?s ?w) = _ =>
            destruct (plan_steps_single t s w) as (step & H1 & H2 & _)
        end.
        rewrite H1 in Hs. injection Hs as <-. congruence.
    + apply Ok_inj in H. subst v. exfalso.
      unfold planning_failed_plan in Hs.
      match type of Hs with
      | plan_steps (single_step_plan ?t ?s ?w) = _ =>
          destruct (plan_steps_single t s w) as (step & H1 & _)
      end.
      congruence.
  - intros (steps & -> & Hall). now rewrite (check_steps_accepts _ Hall).
Qed.

(** A plan without steps and without the other keys comes back as it is. *)
Lemma plan_returns_parsed_witness :
  fst (run (answering (js "{'plan': []}"))
         (plan node default_interp (VStr (py "list files"))))
  = Ok (VDict [(py "plan", VList [])]).
Proof.
  apply (plan_returns_parsed node default_interp (VStr (py "list files"))
           (answering (js "{'plan': []}")) (WithContent (js "{'plan': []}"))).
  - reflexivity.
  - vm_compute. reflexivity.
  - exists []. split; [reflexivity | constructor].
Defined.

(** X15.  An answer of the client that is blank is no failure for
    [plan]: it returns the plan of [_parse_response] for a response
    without JSON, whose one step has the empty string as its task, with
    the warning "Could not parse detailed plan", and not its own fallback
    plan with the user input. *)
Theorem plan_blank_response (self : PlannerNode) (I : interp) (user_input : value)
    (client : list message -> result llm_response) (response : llm_response) :
  client (plan_messages self user_input) = Ok response ->
  Forall (fun c => Py.isspace c = true) (response_content response) ->
  exists p,
    fst (run client (plan self I user_input)) = Ok p
    /\ first_task p = Some (VStr [])
    /\ plan_warnings p = Some (VList [VStr (py "Could not parse detailed plan")]).
Proof.
  intros Ha Hb. destruct (blank_no_json I _ Hb) as [Hp Hs].
  rewrite run_plan, Ha, (plan_try_parsed _ _ _ Hp). cbn [fst].
  unfold no_json_plan. rewrite Hs.
  eexists. split; [reflexivity|]. split; reflexivity.
Qed.

(** A chat model that answers with an empty message. *)
Lemma plan_blank_response_witness :
  exists p,
    fst (run (answering []) (plan node default_interp (VStr (py "list files")))) = Ok p
    /\ first_task p = Some (VStr [])
    /\ plan_warnings p = Some (VList [VStr (py "Could not parse detailed plan")]).
Proof.
  apply (plan_blank_response node default_interp (VStr (py "list files"))
           (answering []) (WithContent [])); [reflexivity | constructor].
Defined.

(** X11.  The two responses that the system prompt gives as examples are
    in the prompt as written, and [plan] accepts each as it is: four
    steps and one step, all of them dicts with the four fields and with a
    category the prompt enumerates. *)
Theorem prompt_examples_accepted (self : PlannerNode) (user_input : value) :
  Forall (fun example_steps =>
            let example := fst example_steps in
            Py.contains system_prompt_text example = true
            /\ exists p steps,
                 fst (run (answering example) (plan self default_interp user_input)) = Ok p
                 /\ json.loads default_interp example = Ok p
                 /\ plan_steps p = Some steps
                 /\ length steps = snd example_steps
                 /\ Forall (fun step =>
                              has_required_fields step
                              /\ exists c, field step (py "category") = Some (VStr c)
                                           /\ In c categories) steps)
    [(prompt_example_1, 4%nat); (prompt_example_2, 1%nat)].
Proof.
  assert (forall c, existsb (Py.eqb c) categories = true -> In c categories) as Hin.
  { intros c H. apply existsb_exists in H as (x & Hx & E). apply py_eqb_eq in E. now subst. }
  repeat constructor; cbn [fst snd].
  all: try (vm_compute; reflexivity).
  all: do 2 eexists; split; [vm_compute; reflexivity|]; split; [vm_compute; reflexivity|].
  all: split; [reflexivity|]; split; [reflexivity|].
  all: repeat constructor; try discriminate.
  all: eexists; (split; [reflexivity | apply Hin; reflexivity]).
Qed.

(** ** __call__, further *)

(** [plan] returns a plan dict, whatever the client does. *)
Lemma plan_never_raises_aux (self : PlannerNode) (I : interp) (user_input : value)
    (client : list message -> result llm_response) :
  exists p, fst (run client (plan self I user_input)) = Ok p
            /\ exists steps, plan_steps p = Some steps.
Proof.
  rewrite run_plan. cbn [fst].
  destruct (plan_try I (client (plan_messages self user_input))) as [p|e] eqn:Ht.
  - destruct (plan_try_ok _ _ _ Ht) as (r & steps & _ & _ & Hs & _). eauto.
  - eexists. split; [reflexivity|]. unfold planning_failed_plan.
    match goal with
    | |- context [single_step_plan ?t ?s ?w] =>
        destruct (plan_steps_single t s w) as (step & H1 & _)
    end.
    eauto.
Qed.

Lemma written_keys_distinct :
  py "failed_steps" <> py "completed_steps" /\ py "failed_steps" <> py "current_step"
  /\ py "failed_steps" <> py "plan" /\ py "completed_steps" <> py "current_step"
  /\ py "completed_steps" <> py "plan" /\ py "current_step" <> py "plan"
  /\ ~ In (py "user_input") written_keys.
Proof. repeat split; try discriminate. cbv. intuition discriminate. Qed.

Lemma not_written (k : str) :
  ~ In k written_keys ->
  k <> py "plan" /\ k <> py "current_step" /\ k <> py "completed_steps"
  /\ k <> py "failed_steps".
Proof. unfold written_keys. simpl. intuition. Qed.

(** What [__call__] does, in one equation: [p] is the plan [plan]
    returns. *)
Lemma run_call (self : PlannerNode) (I : interp) (state : gmap str value)
    (client : list message -> result llm_response) :
  let u := default (VStr []) (state !! py "user_input") in
  exists p,
    fst (run client (plan self I u)) = Ok p
    /\ (exists steps, plan_steps p = Some steps)
    /\ run client (__call__ self I state) =
       if truthy u
       then (Ok (<[py "failed_steps" := VList []]>
                   (<[py "completed_steps" := VList []]>
                      (<[py "current_step" := VInt 0]> (<[py "plan" := p]> state)))),
             [plan_messages self u])
       else (Ok (<[py "plan" := no_input_plan]> state), []).
Proof.
  cbv zeta. set (u := default (VStr []) (state !! py "user_input")).
  destruct (plan_never_raises_aux self I u client) as (p & Hp & Hs).
  exists p. split; [exact Hp|]. split; [exact Hs|].
  unfold __call__. fold u. destruct (truthy u); cbn [negb]; [|reflexivity].
  rewrite run_plan in Hp. cbn [fst] in Hp.
  unfold plan. cbn [pbind run]. rewrite try_except_all.
  fold (plan_messages self u).
  destruct (plan_try I (client (plan_messages self u))) as [p'|e];
    apply Ok_inj in Hp; subst p; reflexivity.
Qed.


(** X13.  Planning again changes nothing: [__call__] leaves "user_input"
    as it is, so on the state it returned, and with a client that answers
    the same, it makes the same call and returns that state again. *)
Theorem call_idempotent (self : PlannerNode) (I : interp) (state : gmap str value)
    (client : list message -> result llm_response) :
  exists state' calls,
    run client (__call__ self I state) = (Ok state', calls)
    /\ state' !! py "user_input" = state !! py "user_input"
    /\ run client (__call__ self I state') = (Ok state', calls).
Proof.
  destruct (run_call self I state client) as (p & Hp & _ & Hr). cbv zeta in Hr.
  destruct written_keys_distinct as (H1 & H2 & H3 & H4 & H5 & H6 & Hu).
  apply not_written in Hu as (U1 & U2 & U3 & U4).
  set (u := default (VStr []) (state !! py "user_input")) in *.
  destruct (truthy u) eqn:Ht.
  - set (state' := <[py "failed_steps" := VList []]> _) in Hr.
    assert (state' !! py "user_input" = state !! py "user_input") as Hsame.
    { unfold state'. now rewrite !lookup_insert_ne by congruence. }
    exists state', [plan_messages self u]. split; [exact Hr|]. split; [exact Hsame|].
    destruct (run_call self I state' client) as (p' & Hp' & _ & Hr'). cbv zeta in Hr'.
    rewrite Hsame in Hp', Hr'. fold u in Hp', Hr'. rewrite Ht in Hr'.
    assert (p' = p) as -> by congruence.
    rewrite Hr'. f_equal. f_equal. apply map_eq. intros k. unfold state'.
    rewrite !lookup_insert. repeat case_decide; reflexivity.
  - exists (<[py "plan" := no_input_plan]> state), []. split; [exact Hr|].
    assert ((<[py "plan" := no_input_plan]> state) !! py "user_input"
            = state !! py "user_input") as Hsame
      by (now rewrite lookup_insert_ne by congruence).
    split; [exact Hsame|].
    destruct (run_call self I (<[py "plan" := no_input_plan]> state) client)
      as (p' & _ & _ & Hr'). cbv zeta in Hr'.
    rewrite Hsame in Hr'. fold u in Hr'. rewrite Ht in Hr'.
    rewrite Hr'. now rewrite insert_insert_eq.
Qed.

(** ** __init__ *)


